(** * Road Accident Analytics dashboard: the filter / aggregation pipeline

    A shallow embedding of [app.py].  A pandas DataFrame is a list of
    rows, each paired with its index label; a column cell is an [option]
    ([None] is pandas' null: NaN, NaT or None).  Boolean-mask indexing is
    [filter]; the library calls whose internals are not part of the
    program ([pd.to_datetime], [sort_values], [RandomState.choice],
    [DataFrame.corr], [round] on a float64, [Series.min] and [Series.max]
    on a column of objects) are section variables, constrained only by
    their documented contract.  Where pandas 1.x/2.x and pandas 3 differ
    ([groupby]'s default for [observed]) the statements cover both. *)

From Stdlib Require Import List ZArith QArith Qround String Ascii Bool Arith Lia.
From Stdlib Require Import Permutation Sorted Lqa.
From Stdlib Require OrderedTypeEx.
Import ListNotations.

Local Open Scope string_scope.
Local Open Scope list_scope.
Local Open Scope Z_scope.

(* ================================================================== *)
(** ** Calendar values *)

Module Calendar.

(** [datetime.date]: the cells of the [Date] column and the two ends of
    the sidebar's date range. *)
Record date := mkdate { year : Z; month : Z; day : Z }.

(** [pd.Timestamp], broken down to its civil fields. *)
Record Timestamp := mkts {
  ts_year : Z; ts_month : Z; ts_day : Z;
  ts_hour : Z; ts_minute : Z; ts_second : Z }.

(** Python compares dates field by field: year, then month, then day. *)
Definition date_leb (a b : date) : bool :=
  (year a <? year b)
  || ((year a =? year b)
      && ((month a <? month b)
          || ((month a =? month b) && (day a <=? day b)))).

Definition date_eqb (a b : date) : bool :=
  (year a =? year b) && (month a =? month b) && (day a =? day b).

(** Days between 1970-01-01 and the given civil date (proleptic
    Gregorian calendar). *)
Definition days_from_civil (y m d : Z) : Z :=
  let y' := if m <=? 2 then y - 1 else y in
  let era := y' / 400 in
  let yoe := y' - era * 400 in
  let mp := (m + 9) mod 12 in
  let doy := (153 * mp + 2) / 5 + d - 1 in
  let doe := yoe * 365 + yoe / 4 - yoe / 100 + doy in
  era * 146097 + doe - 719468.

Definition is_leap (y : Z) : bool :=
  (y mod 4 =? 0) && (negb (y mod 100 =? 0) || (y mod 400 =? 0)).

Definition days_in_month (y m : Z) : Z :=
  if m =? 2 then (if is_leap y then 29 else 28)
  else if (m =? 4) || (m =? 6) || (m =? 9) || (m =? 11) then 30
  else 31.

(** The sidebar's weekday options and the order of [fig3]'s reindex. *)
Definition week : list string :=
  ["Monday"; "Tuesday"; "Wednesday"; "Thursday"; "Friday"; "Saturday";
   "Sunday"].

(** [.dt.dayofweek]: Monday is 0; 1970-01-01 was a Thursday. *)
Definition dayofweek (t : Timestamp) : nat :=
  Z.to_nat ((days_from_civil (ts_year t) (ts_month t) (ts_day t) + 3) mod 7).

(** [.dt.date], [.dt.hour], [.dt.month], [.dt.day_name()]. *)
Definition dt_date (t : Timestamp) : date :=
  mkdate (ts_year t) (ts_month t) (ts_day t).
Definition dt_hour (t : Timestamp) : Z := ts_hour t.
Definition dt_month (t : Timestamp) : Z := ts_month t.
Definition dt_day_name (t : Timestamp) : string :=
  nth (dayofweek t) week "Sunday".

End Calendar.
Import Calendar.

(* ================================================================== *)
(** ** Rows and frames *)

(** A row of the CSV file as [pd.read_csv] delivers it: the timestamp is
    still text, an empty cell is null. *)
Record CsvRow := mkCsvRow {
  csv_Start_Time : option string;
  csv_State : option string;
  csv_City : option string;
  csv_Weather_Condition : option string;
  csv_Severity : option Z;
  csv_Start_Lat : option Q;
  csv_Start_Lng : option Q;
  csv_Visibility : option Q;
  csv_Temperature : option Q;
  csv_Wind_Speed : option Q }.

(** A row of the table the dashboard works on: [Start_Time] parsed and the
    four calendar columns added by [load_data]. *)
Record Row := mkRow {
  Start_Time : option Timestamp;
  Date : option date;
  Hour : option Z;
  Month : option Z;
  Day : option string;
  State : option string;
  City : option string;
  Weather_Condition : option string;
  Severity : option Z;
  Start_Lat : option Q;
  Start_Lng : option Q;
  Visibility : option Q;
  Temperature : option Q;
  Wind_Speed : option Q }.

(** A frame: the rows in order, each with its index label.  [read_csv]
    labels the rows 0, 1, 2, ...; boolean indexing keeps the labels. *)
Definition DataFrame := list (nat * Row).

Definition len (df : DataFrame) : nat := List.length df.

(** [df[mask]] for a row-wise boolean mask. *)
Definition boolean_index (mask : Row -> bool) (df : DataFrame) : DataFrame :=
  filter (fun ir => mask (snd ir)) df.

(** [df.dropna(subset=...)]: [populated] tells whether the row has all the
    listed cells. *)
Definition dropna (populated : Row -> bool) (df : DataFrame) : DataFrame :=
  boolean_index populated df.

Definition notna {A} (c : option A) : bool :=
  match c with Some _ => true | None => false end.

(* ================================================================== *)
(** ** [load_data] (lines 19-28) *)

Section Loader.

(** [pd.to_datetime(..., errors="coerce")] on one text cell: [None] is
    NaT, the outcome of a failed parse. *)
Variable to_datetime : string -> option Timestamp.

Definition parse_cell (c : option string) : option Timestamp :=
  match c with
  | Some s => to_datetime s
  | None => None
  end.

Definition load_row (r : CsvRow) : Row :=
  let start_time := parse_cell (csv_Start_Time r) in
  {| Start_Time := start_time;
     Date := option_map dt_date start_time;
     Hour := option_map dt_hour start_time;
     Month := option_map dt_month start_time;
     Day := option_map dt_day_name start_time;
     State := csv_State r;
     City := csv_City r;
     Weather_Condition := csv_Weather_Condition r;
     Severity := csv_Severity r;
     Start_Lat := csv_Start_Lat r;
     Start_Lng := csv_Start_Lng r;
     Visibility := csv_Visibility r;
     Temperature := csv_Temperature r;
     Wind_Speed := csv_Wind_Speed r |}.

Definition load_data (csv : list CsvRow) : DataFrame :=
  combine (seq 0 (List.length csv)) (map load_row csv).

End Loader.

(* ================================================================== *)
(** ** [get_filtered_data] (lines 90-114) *)

Definition option_eqb {A} (eqb : A -> A -> bool) (a b : option A) : bool :=
  match a, b with
  | Some x, Some y => eqb x y
  | None, None => true
  | _, _ => false
  end.

(** [Series.isin(values)] on one cell: membership in the selected values;
    a null cell matches only a null among the values. *)
Definition isin {A} (eqb : A -> A -> bool) (values : list (option A))
    (c : option A) : bool :=
  existsb (option_eqb eqb c) values.

(** [Date >= start_date] and [Date <= end_date] on one cell: comparing a
    null cell gives False. *)
Definition date_ge (c : option date) (d : date) : bool :=
  match c with Some x => date_leb d x | None => false end.
Definition date_le (c : option date) (d : date) : bool :=
  match c with Some x => date_leb x d | None => false end.

(** [Series.between(lo, hi)], both ends included; False on a null cell. *)
Definition between (lo hi : Z) (c : option Z) : bool :=
  match c with Some x => (lo <=? x) && (x <=? hi) | None => false end.

(** The sidebar's choices, as [get_filtered_data] receives them.  The
    set-up of the widgets (lines 45-87), which offers the values found in
    the table and the table's first and last date as the default range, is
    not part of the model: the choices are inputs. *)
Record Criteria := mkCriteria {
  state : list (option string);
  severity : list (option Z);
  weather : list (option string);
  day : list (option string);
  hour_range : Z * Z;
  month_range : Z * Z;
  start_date : date;
  end_date : date }.

(** [if values: df = df[df[col].isin(values)]]: a list is true when it is
    not empty. *)
Definition isin_step {A} (eqb : A -> A -> bool) (col : Row -> option A)
    (values : list (option A)) (df : DataFrame) : DataFrame :=
  match values with
  | [] => df
  | _ :: _ => boolean_index (fun r => isin eqb values (col r)) df
  end.

Definition date_step (c : Criteria) (df : DataFrame) : DataFrame :=
  boolean_index
    (fun r => date_ge (Date r) (start_date c) && date_le (Date r) (end_date c))
    df.

Definition range_step (c : Criteria) (df : DataFrame) : DataFrame :=
  boolean_index
    (fun r => between (fst (hour_range c)) (snd (hour_range c)) (Hour r)
              && between (fst (month_range c)) (snd (month_range c)) (Month r))
    df.

Definition get_filtered_data (df : DataFrame) (c : Criteria) : DataFrame :=
  let filtered_df := df in
  let filtered_df := date_step c filtered_df in
  let filtered_df := isin_step String.eqb State (state c) filtered_df in
  let filtered_df := isin_step Z.eqb Severity (severity c) filtered_df in
  let filtered_df :=
    isin_step String.eqb Weather_Condition (weather c) filtered_df in
  let filtered_df := isin_step String.eqb Day (day c) filtered_df in
  let filtered_df := range_step c filtered_df in
  filtered_df.

(* ================================================================== *)
(** ** Group-by counts (lines 144-181) *)

(** Sorted insertion without duplicates: the order of a group-by's index
    and of a categorical column's categories. *)
Fixpoint insert_uniq {A} (cmp : A -> A -> comparison) (a : A) (l : list A)
    : list A :=
  match l with
  | [] => [a]
  | x :: l' =>
      match cmp a x with
      | Lt => a :: l
      | Eq => l
      | Gt => x :: insert_uniq cmp a l'
      end
  end.

(** The cells of a column that are not null, in row order. *)
Definition values {A} (col : Row -> option A) (df : DataFrame) : list A :=
  flat_map (fun ir => match col (snd ir) with Some v => [v] | None => [] end)
    df.

(** [sorted(col.dropna().unique())]. *)
Definition unique_sorted {A} (cmp : A -> A -> comparison)
    (col : Row -> option A) (df : DataFrame) : list A :=
  fold_right (insert_uniq cmp) [] (values col df).

(** Lines 33-36: [df[col].astype("category")] makes the sorted distinct
    non-null values of the column of the LOADED table its categories;
    [df.copy()] and boolean indexing keep them. *)
Definition categories (col : Row -> option string) (df : DataFrame)
    : list string :=
  unique_sorted String.compare col df.

(** The index of [groupby] on a categorical column of [filtered_df]: with
    [observed=False], the default of pandas 1.x and 2.x, every category
    of the column, that is every value of the loaded table [df]; with
    [observed=True], the default of pandas 3, the values present in
    [filtered_df].  The script passes no [observed]. *)
Definition groupby_categories (observed : bool) (col : Row -> option string)
    (df filtered_df : DataFrame) : list string :=
  categories col (if observed then filtered_df else df).

(** How many rows have [key] in the column; a null cell is in no group. *)
Definition group_size {A} (eqb : A -> A -> bool) (col : Row -> option A)
    (key : A) (df : DataFrame) : nat :=
  len (boolean_index (fun r => option_eqb eqb (col r) (Some key)) df).

(** [df.groupby(col).size()] on a plain column: one entry per value present,
    in sorted order. *)
Definition groupby_size {A} (cmp : A -> A -> comparison)
    (eqb : A -> A -> bool) (col : Row -> option A) (df : DataFrame)
    : list (A * nat) :=
  map (fun k => (k, group_size eqb col k df)) (unique_sorted cmp col df).

(** [df.groupby(col).size()] on a categorical column ([observed=False], the
    default of pandas 1.x and 2.x): one entry per category, in category
    order, 0 for a category without rows. *)
Definition groupby_size_categorical (cats : list string)
    (col : Row -> option string) (df : DataFrame) : list (string * nat) :=
  map (fun k => (k, group_size String.eqb col k df)) cats.

Fixpoint series_get (k : string) (s : list (string * nat)) : option nat :=
  match s with
  | [] => None
  | (k', v) :: s' => if String.eqb k k' then Some v else series_get k s'
  end.

(** [Series.reindex(labels)] (no [fill_value]): the labels in the given
    order; a label the series does not have gets a null. *)
Definition reindex (labels : list string) (s : list (string * nat))
    : list (string * option nat) :=
  map (fun l => (l, series_get l s)) labels.

(** The frames charted by [fig2] (line 146) and [fig4] (line 167). *)
Definition fig2_data (filtered_df : DataFrame) : list (Z * nat) :=
  groupby_size Z.compare Z.eqb Hour filtered_df.
Definition fig4_data (filtered_df : DataFrame) : list (Z * nat) :=
  groupby_size Z.compare Z.eqb Month filtered_df.

(** The frame charted by [fig3] (lines 156-158); [cats] are the categories
    of the [Day] column. *)
Definition fig3_data (cats : list string) (filtered_df : DataFrame)
    : list (string * option nat) :=
  reindex week (groupby_size_categorical cats Day filtered_df).

Section StateCounts.

(** [sort_values("Accident Count", ascending=False)] with pandas' default
    [kind="quicksort"]: the rows rearranged into descending count order.
    The default sort is not a stable one, so nothing more is assumed. *)
Variable sort_values : list (string * nat) -> list (string * nat).

Definition head {A} (n : nat) (l : list A) : list A := firstn n l.

(** Lines 175-181; [cats] are the categories of the [State] column. *)
Definition state_counts (cats : list string) (filtered_df : DataFrame)
    : list (string * nat) :=
  head 15 (sort_values (groupby_size_categorical cats State filtered_df)).

End StateCounts.

(* ================================================================== *)
(** ** Key metrics (lines 122-126) *)

(** [Series.mean()]: the mean of the non-null cells, NaN ([None]) when there
    is none.  Floating-point numbers are idealised as rationals. *)
Definition mean (vs : list Z) : option Q :=
  match vs with
  | [] => None
  | _ :: _ => Some (Qmake (fold_right Z.add 0 vs)
                          (Pos.of_nat (List.length vs)))
  end.

Section KeyMetrics.

(** [round(x, 2)] on the float64 that [mean] returns.  It gives a
    hundredth next to [x]; when [x] is half-way between two hundredths the
    float product [x * 100] decides which (1.225 gives 1.23, 1.015 gives
    1.01), so the direction of a tie is not fixed here. *)
Variable round_2 : Q -> Q.

(** The "Average Severity" metric (line 123); [None] stands for NaN. *)
Definition average_severity (filtered_df : DataFrame) : option Q :=
  if (0 <? len filtered_df)%nat
  then option_map round_2 (mean (values Severity filtered_df))
  else Some 0%Q.

End KeyMetrics.

(** One rounding to the nearest hundredth, halves to the even one, to run
    the metric with. *)
Definition rint (q : Q) : Z :=
  let fl := Qfloor q in
  match Qcompare (q - inject_Z fl) (1 # 2) with
  | Lt => fl
  | Gt => fl + 1
  | Eq => if Z.even fl then fl else fl + 1
  end.

Definition round2 (q : Q) : Q := Qmake (rint (q * 100)) 100.

(* ================================================================== *)
(** ** Map points (lines 197-208) *)

(** A Python call either returns or raises. *)
Inductive result (A : Type) : Type :=
| Ok (a : A)
| ValueError
| IndexError.
Arguments Ok {A} a.
Arguments ValueError {A}.
Arguments IndexError {A}.

(** [df.take(positions)]: the rows at the given positions, in that order;
    a position outside the frame raises. *)
Fixpoint take (positions : list nat) (df : DataFrame) : result DataFrame :=
  match positions with
  | [] => Ok []
  | i :: rest =>
      match nth_error df i, take rest df with
      | Some ir, Ok out => Ok (ir :: out)
      | _, _ => IndexError
      end
  end.

Section MapPoints.

(** numpy's generator: its state, [np.random.RandomState(seed)], and
    [rs.choice(a, size=n, replace=False)], which returns [n] positions
    below [a] and leaves the generator advanced. *)
Variable RandomState : Type.
Variable RandomState_of_seed : Z -> RandomState.
Variable choice : RandomState -> nat -> nat -> list nat * RandomState.

(** [df.sample(n=n, random_state=random_state)], run while the process-wide
    generator is [g]: an integer [random_state] seeds a generator of its
    own and leaves [g] alone, [None] draws from [g].  Asking for more rows
    than the frame has raises. *)
Definition sample (n : nat) (random_state : option Z) (df : DataFrame)
    (g : RandomState) : result DataFrame * RandomState :=
  let rs :=
    match random_state with
    | Some seed => RandomState_of_seed seed
    | None => g
    end in
  if (len df <? n)%nat then (ValueError, g)
  else
    let (sampled_indices, rs') := choice rs (len df) n in
    (take sampled_indices df,
     match random_state with Some _ => g | None => rs' end).

Definition has_coordinates (r : Row) : bool :=
  notna (Start_Lat r) && notna (Start_Lng r).

(** Lines 205-208. *)
Definition map_df (filtered_df : DataFrame) (map_points : nat)
    (g : RandomState) : result DataFrame * RandomState :=
  let map_df := dropna has_coordinates filtered_df in
  if (map_points <? len map_df)%nat
  then sample map_points (Some 42) map_df g
  else (Ok map_df, g).

End MapPoints.
Arguments sample {RandomState} RandomState_of_seed choice n random_state df g.
Arguments map_df {RandomState} RandomState_of_seed choice filtered_df
  map_points g.

(* ================================================================== *)
(** ** Correlation tab (lines 273-285) *)

(** A row of [filtered_df[corr_cols]]. *)
Record CorrRow := mkCorrRow {
  c_Severity : option Z;
  c_Visibility : option Q;
  c_Temperature : option Q;
  c_Wind_Speed : option Q }.

Definition select_corr_cols (df : DataFrame) : list (nat * CorrRow) :=
  map (fun ir =>
         (fst ir,
          {| c_Severity := Severity (snd ir);
             c_Visibility := Visibility (snd ir);
             c_Temperature := Temperature (snd ir);
             c_Wind_Speed := Wind_Speed (snd ir) |}))
      df.

(** [.dropna()] with no arguments drops a row that has any null cell. *)
Definition corr_complete (r : CorrRow) : bool :=
  notna (c_Severity r) && notna (c_Visibility r)
  && notna (c_Temperature r) && notna (c_Wind_Speed r).

Definition dropna_any (df : list (nat * CorrRow)) : list (nat * CorrRow) :=
  filter (fun ir => corr_complete (snd ir)) df.

(** Line 280. *)
Definition corr_df (filtered_df : DataFrame) : list (nat * CorrRow) :=
  dropna_any (select_corr_cols filtered_df).

Section Correlation.

(** [DataFrame.corr()] and the matrix it returns. *)
Variable Matrix : Type.
Variable corr : list (nat * CorrRow) -> Matrix.

(** What the tab shows: the warning, or the heat map of a matrix. *)
Inductive CorrelationTab : Type :=
| Warning (msg : string)
| Heatmap (m : Matrix).

Definition correlation_tab (filtered_df : DataFrame) : CorrelationTab :=
  if (List.length (corr_df filtered_df) =? 0)%nat
  then Warning "Not enough data available for correlation heatmap."
  else Heatmap (corr (corr_df filtered_df)).

End Correlation.
Arguments Warning {Matrix} msg.
Arguments Heatmap {Matrix} m.
Arguments correlation_tab {Matrix} corr filtered_df.

(* ================================================================== *)
(** ** Notions the statements below are written with *)

(** [Subframe a b]: frame [a] is frame [b] with some rows left out, the
    others kept with their labels and in their order. *)
Inductive Subframe : DataFrame -> DataFrame -> Prop :=
| Subframe_nil : Subframe [] []
| Subframe_keep ir a b : Subframe a b -> Subframe (ir :: a) (ir :: b)
| Subframe_drop ir a b : Subframe a b -> Subframe a (ir :: b).

(** The four categorical dimensions of the sidebar. *)
Inductive Dimension := DimState | DimSeverity | DimWeather | DimDay.

Definition Dimension_eqb (a b : Dimension) : bool :=
  match a, b with
  | DimState, DimState | DimSeverity, DimSeverity
  | DimWeather, DimWeather | DimDay, DimDay => true
  | _, _ => false
  end.

Definition selection_empty (d : Dimension) (c : Criteria) : Prop :=
  match d with
  | DimState => state c = []
  | DimSeverity => severity c = []
  | DimWeather => weather c = []
  | DimDay => day c = []
  end.

(** The filter of the specification with dimension [d] removed: the same
    steps as [get_filtered_data], the one for [d] left out. *)
Definition filtered_without (d : Dimension) (df : DataFrame) (c : Criteria)
    : DataFrame :=
  let unless (d' : Dimension) (step : DataFrame -> DataFrame) df :=
    if Dimension_eqb d d' then df else step df in
  let filtered_df := date_step c df in
  let filtered_df :=
    unless DimState (isin_step String.eqb State (state c)) filtered_df in
  let filtered_df :=
    unless DimSeverity (isin_step Z.eqb Severity (severity c)) filtered_df in
  let filtered_df :=
    unless DimWeather
      (isin_step String.eqb Weather_Condition (weather c)) filtered_df in
  let filtered_df :=
    unless DimDay (isin_step String.eqb Day (day c)) filtered_df in
  range_step c filtered_df.

(** Whether a cell passes a categorical selection. *)
Definition selected {A} (eqb : A -> A -> bool) (values : list (option A))
    (c : option A) : bool :=
  match values with
  | [] => true
  | _ :: _ => isin eqb values c
  end.

(** The row-wise condition the whole filter amounts to. *)
Definition keeps (c : Criteria) (r : Row) : bool :=
  date_ge (Date r) (start_date c) && date_le (Date r) (end_date c)
  && selected String.eqb (state c) (State r)
  && selected Z.eqb (severity c) (Severity r)
  && selected String.eqb (weather c) (Weather_Condition r)
  && selected String.eqb (day c) (Day r)
  && (between (fst (hour_range c)) (snd (hour_range c)) (Hour r)
      && between (fst (month_range c)) (snd (month_range c)) (Month r)).

(** A row whose timestamp was parsed. *)
Definition timed (r : Row) : bool := notna (Start_Time r).

(** Whether some row of the frame has [Some k] in the column. *)
Definition occurs (col : Row -> option string) (k : string)
    (df : DataFrame) : bool :=
  existsb (fun ir => option_eqb String.eqb (col (snd ir)) (Some k)) df.

(** A row that has all four cells the correlation needs. *)
Definition fully_populated (r : Row) : bool :=
  notna (Severity r) && notna (Visibility r)
  && notna (Temperature r) && notna (Wind_Speed r).

(** Descending order of counts. *)
Definition count_ge (a b : string * nat) : Prop := (snd b <= snd a)%nat.

(** What [sort_values(..., ascending=False)] promises whatever its [kind]. *)
Definition sorts_descending
    (sort : list (string * nat) -> list (string * nat)) : Prop :=
  forall l, Permutation (sort l) l /\ StronglySorted count_ge (sort l).

(** Two descending insertion sorts that differ only on equal counts:
    with [ties_kept] an entry stays ahead of the equal ones that followed
    it, without it falls behind them. *)
Fixpoint insert_desc (ties_kept : bool) (x : string * nat)
    (l : list (string * nat)) : list (string * nat) :=
  match l with
  | [] => [x]
  | y :: l' =>
      if (if ties_kept then snd y <=? snd x else snd y <? snd x)%nat
      then x :: l
      else y :: insert_desc ties_kept x l'
  end.

Definition sort_desc (ties_kept : bool) (l : list (string * nat))
    : list (string * nat) :=
  fold_right (insert_desc ties_kept) [] l.

(** The order a stable sort gives: descending counts, equal counts in the
    order of the grouping. *)
Definition stable_sort_desc := sort_desc true.

(** What rounding to two decimals promises: a whole number of
    hundredths, at most half a hundredth away. *)
Definition rounds_to_hundredths (round_2 : Q -> Q) : Prop :=
  forall q, exists k : Z,
    (round_2 q == k # 100)%Q
    /\ (q * 100 - (1 # 2) <= inject_Z k <= q * 100 + (1 # 2))%Q.

(** Two metric values denote the same number (or are both NaN). *)
Definition same_number (a b : option Q) : Prop :=
  match a, b with
  | Some x, Some y => (x == y)%Q
  | None, None => True
  | _, _ => False
  end.

(** What [choice] promises when asked for no more positions than there
    are: that many positions, all inside the population. *)
Definition draws_positions {RandomState : Type}
    (choice : RandomState -> nat -> nat -> list nat * RandomState) : Prop :=
  forall rs a n, (n <= a)%nat ->
    List.length (fst (choice rs a n)) = n
    /\ Forall (fun i => (i < a)%nat) (fst (choice rs a n)).

(* ================================================================== *)
(** ** Worked data *)

Module Examples.

(** A parser to run the loader with: it accepts "YYYY-MM-DD HH:MM:SS" and
    nothing else. *)
Definition digit (a : ascii) : option Z :=
  let n := Z.of_N (N_of_ascii a) in
  if (48 <=? n) && (n <=? 57) then Some (n - 48) else None.

Fixpoint number (acc : Z) (l : list ascii) : option Z :=
  match l with
  | [] => Some acc
  | a :: rest =>
      match digit a with
      | Some d => number (10 * acc + d) rest
      | None => None
      end
  end.

Definition in_range (lo hi : Z) (v : option Z) : option Z :=
  match v with
  | Some x => if (lo <=? x) && (x <=? hi) then Some x else None
  | None => None
  end.

Definition to_datetime (s : string) : option Timestamp :=
  match list_ascii_of_string s with
  | [y1; y2; y3; y4; "-"; m1; m2; "-"; d1; d2; " ";
     h1; h2; ":"; n1; n2; ":"; s1; s2]%char =>
      match number 0 [y1; y2; y3; y4],
            in_range 1 12 (number 0 [m1; m2]),
            number 0 [d1; d2],
            in_range 0 23 (number 0 [h1; h2]),
            in_range 0 59 (number 0 [n1; n2]),
            in_range 0 59 (number 0 [s1; s2]) with
      | Some y, Some m, Some d, Some h, Some n, Some sec =>
          if (1 <=? d) && (d <=? days_in_month y m)
          then Some (mkts y m d h n sec)
          else None
      | _, _, _, _, _, _ => None
      end
  | _ => None
  end.

(** An accident whose timestamp does not parse. *)
Definition unparsable : CsvRow :=
  mkCsvRow (Some "not a timestamp") (Some "NY") (Some "New York")
    (Some "Snow") (Some 3) (Some (4071 # 100)%Q) (Some (- 7401 # 100)%Q)
    (Some 1%Q) (Some 28%Q) (Some 20%Q).

(** Five accidents; the third is the one above, the fourth lacks
    coordinates, the fifth lacks a visibility. *)
Definition csv : list CsvRow :=
  [ mkCsvRow (Some "2023-01-02 08:15:00") (Some "CA") (Some "Los Angeles")
      (Some "Clear") (Some 1) (Some (3405 # 100)%Q) (Some (- 11824 # 100)%Q)
      (Some 10%Q) (Some 60%Q) (Some 5%Q);
    mkCsvRow (Some "2023-01-03 17:40:00") (Some "CA") (Some "San Diego")
      (Some "Rain") (Some 2) (Some (3272 # 100)%Q) (Some (- 11716 # 100)%Q)
      (Some 4%Q) (Some 58%Q) (Some 12%Q);
    unparsable;
    mkCsvRow (Some "2023-02-11 06:05:00") (Some "TX") (Some "Houston")
      (Some "Clear") (Some 2) None None
      (Some 9%Q) (Some 71%Q) (Some 7%Q);
    mkCsvRow (Some "2023-03-05 23:59:59") (Some "CA") (Some "Fresno")
      (Some "Fog") (Some 1) (Some (3674 # 100)%Q) (Some (- 11979 # 100)%Q)
      None (Some 49%Q) (Some 3%Q) ].

Definition df : DataFrame := load_data to_datetime csv.

(** The file without the accident whose timestamp does not parse. *)
Definition dated_csv : list CsvRow :=
  filter (fun r => notna (parse_cell to_datetime (csv_Start_Time r))) csv.
Definition dated_df : DataFrame := load_data to_datetime dated_csv.

(** Twenty states and how many accidents each has in the next table. *)
Definition twenty_states : list (string * nat) :=
  [("AL", 2); ("AZ", 1); ("CA", 3); ("CO", 1); ("CT", 2); ("FL", 1);
   ("GA", 1); ("IL", 2); ("IN", 1); ("KS", 3); ("KY", 1); ("LA", 2);
   ("MA", 1); ("MD", 1); ("MI", 2); ("MN", 1); ("NC", 1); ("NJ", 3);
   ("NY", 2); ("TX", 1)]%nat.

Definition accident_in (s : string) : CsvRow :=
  mkCsvRow (Some "2023-01-02 08:15:00") (Some s) (Some "Springfield")
    (Some "Clear") (Some 2) (Some (3405 # 100)%Q) (Some (- 11824 # 100)%Q)
    (Some 10%Q) (Some 60%Q) (Some 5%Q).

Definition states_csv : list CsvRow :=
  flat_map (fun sn => repeat (accident_in (fst sn)) (snd sn)) twenty_states.
Definition states_df : DataFrame := load_data to_datetime states_csv.

(** Every list of the sidebar empty, the ranges at their widest. *)
Definition no_selection : Criteria :=
  {| state := []; severity := []; weather := []; day := [];
     hour_range := (0, 23); month_range := (1, 12);
     start_date := mkdate 2023 1 1; end_date := mkdate 2023 12 31 |}.

(** California only. *)
Definition california : Criteria :=
  {| state := [Some "CA"]; severity := []; weather := []; day := [];
     hour_range := (0, 23); month_range := (1, 12);
     start_date := mkdate 2023 1 1; end_date := mkdate 2023 12 31 |}.

(** The morning hours only. *)
Definition morning : Criteria :=
  {| state := []; severity := []; weather := []; day := [];
     hour_range := (6, 9); month_range := (1, 12);
     start_date := mkdate 2023 1 1; end_date := mkdate 2023 12 31 |}.

(** Fog only. *)
Definition fog : Criteria :=
  {| state := []; severity := []; weather := [Some "Fog"]; day := [];
     hour_range := (0, 23); month_range := (1, 12);
     start_date := mkdate 2023 1 1; end_date := mkdate 2023 12 31 |}.

(** A generator to run the sampling with: its state is a counter; an even
    state draws the first positions, an odd one the last. *)
Definition choice (rs : nat) (a n : nat) : list nat * nat :=
  (if Nat.even rs then seq 0 n else seq (a - n) n, S rs).
Definition RandomState_of_seed (seed : Z) : nat := Z.to_nat seed.

(** A correlation routine to run the tab with: it only reports how many
    rows it was given. *)
Definition corr (rows : list (nat * CorrRow)) : nat := List.length rows.

End Examples.

(* ================================================================== *)
(** ** The rest of the page *)

(** Lines 45 and 47: [sorted(df[col].dropna().unique())], the options of
    the state and weather lists. *)
Definition all_states (df : DataFrame) : list string :=
  unique_sorted String.compare State df.
Definition all_weather (df : DataFrame) : list string :=
  unique_sorted String.compare Weather_Condition df.

(** Line 55: the state list starts with [all_states[:10]] chosen. *)
Definition default_state (df : DataFrame) : list (option string) :=
  map Some (firstn 10 (all_states df)).

(** A Python call that returns or raises a [TypeError]. *)
Inductive outcome (A : Type) : Type :=
| Returned (a : A)
| TypeError.
Arguments Returned {A} a.
Arguments TypeError {A}.

Section DateLimits.

(** [Series.min()] and [Series.max()] on the [Date] column, a column of
    Python objects. *)
Variable Series_min : list (option date) -> outcome (option date).
Variable Series_max : list (option date) -> outcome (option date).

(** Lines 49-50. *)
Definition min_max_date (df : DataFrame)
    : outcome (option date * option date) :=
  match Series_min (map (fun ir => Date (snd ir)) df) with
  | TypeError => TypeError
  | Returned min_date =>
      match Series_max (map (fun ir => Date (snd ir)) df) with
      | TypeError => TypeError
      | Returned max_date => Returned (min_date, max_date)
      end
  end.

(** The script from line 49 to line 116: the limits of the date picker
    are computed before the filter is called, and an exception ends the
    run. *)
Definition filtered_df_of_run (df : DataFrame) (c : Criteria)
    : outcome DataFrame :=
  match min_max_date df with
  | TypeError => TypeError
  | Returned _ => Returned (get_filtered_data df c)
  end.

End DateLimits.

(** How [min] and [max] of a column of Python objects go in pandas 1.x and
    2.x: the nulls are replaced by an infinite float before the values are
    compared, and comparing a date with a float raises. *)
Definition raises_on_missing_dates
    (reduce : list (option date) -> outcome (option date)) : Prop :=
  forall col d, In (Some d) col -> In None col -> reduce col = TypeError.

(** A [min] and a [max] that go so, to run lines 49-50 with: the smallest
    (largest) date of a column without nulls, a null for a column without
    dates. *)
Definition object_reduce (pick : date -> date -> date)
    (col : list (option date)) : outcome (option date) :=
  if existsb notna col && existsb (fun c => negb (notna c)) col
  then TypeError
  else Returned
         (fold_right
            (fun c acc =>
               match c, acc with
               | Some d, Some a => Some (pick d a)
               | Some d, None => Some d
               | None, _ => acc
               end)
            None col).
Definition object_min : list (option date) -> outcome (option date) :=
  object_reduce (fun d a => if date_leb d a then d else a).
Definition object_max : list (option date) -> outcome (option date) :=
  object_reduce (fun d a => if date_leb d a then a else d).

(** What [st.sidebar.date_input] hands back: one date, or a tuple of the
    dates picked so far. *)
Inductive DateInput :=
| OneDate (d : date)
| DateTuple (ds : list date).

(** Lines 84-87; [min_date] and [max_date] are the values of lines 49-50. *)
Definition date_bounds (date_range : DateInput) (min_date max_date : date)
    : date * date :=
  match date_range with
  | DateTuple [start_date; end_date] => (start_date, end_date)
  | _ => (min_date, max_date)
  end.

(** [Series.nunique()]: how many distinct non-null values. *)
Definition nunique {A} (cmp : A -> A -> comparison) (col : Row -> option A)
    (df : DataFrame) : nat :=
  List.length (unique_sorted cmp col df).

(** Lines 122 and 124-126. *)
Definition total_accidents (filtered_df : DataFrame) : nat :=
  len filtered_df.
Definition states_covered (filtered_df : DataFrame) : nat :=
  nunique String.compare State filtered_df.
Definition cities_covered (filtered_df : DataFrame) : nat :=
  nunique String.compare City filtered_df.
Definition weather_types (filtered_df : DataFrame) : nat :=
  nunique String.compare Weather_Condition filtered_df.

(** Line 255, the frame charted by [fig6]:
    [filtered_df["Weather_Condition"].value_counts().head(15)].  On a
    categorical column [value_counts] counts every category and then puts
    the counts in descending order with [sort_values]; [cats] are the
    categories of the column. *)
Definition fig6_data
    (sort_values : list (string * nat) -> list (string * nat))
    (cats : list string) (filtered_df : DataFrame) : list (string * nat) :=
  head 15
    (sort_values
       (groupby_size_categorical cats Weather_Condition filtered_df)).

(** [Series.mean()] on a column of numbers. *)
Definition mean_Q (vs : list Q) : option Q :=
  match vs with
  | [] => None
  | _ :: _ => Some (fold_right Qplus 0%Q vs
                    / inject_Z (Z.of_nat (List.length vs)))%Q
  end.

(** The two views of the map tab (lines 199-203). *)
Inductive MapView := HotspotsHeatmap | MarkerClusters.

(** What the map tab shows: the warning, or a map centred on [location]
    with one mark per entry of [points]. *)
Inductive MapTab :=
| NoMapData (msg : string)
| MapShown (view : MapView) (location : option Q * option Q)
    (points : list (option Q * option Q)).

(** [map_df[["Start_Lat", "Start_Lng"]].values.tolist()], which is also
    the list of places the marker loop visits. *)
Definition coordinates (df : DataFrame) : list (option Q * option Q) :=
  map (fun ir => (Start_Lat (snd ir), Start_Lng (snd ir))) df.

(** Lines 205-249. *)
Definition map_tab {RandomState : Type}
    (RandomState_of_seed : Z -> RandomState)
    (choice : RandomState -> nat -> nat -> list nat * RandomState)
    (filtered_df : DataFrame) (map_points : nat) (map_view : MapView)
    (g : RandomState) : result MapTab * RandomState :=
  let (outcome, g') :=
    map_df RandomState_of_seed choice filtered_df map_points g in
  match outcome with
  | Ok map_df =>
      (Ok (if (len map_df =? 0)%nat
           then NoMapData "No map data available for selected filters."
           else MapShown map_view
                  (mean_Q (values Start_Lat map_df),
                   mean_Q (values Start_Lng map_df))
                  (coordinates map_df)),
       g')
  | ValueError => (ValueError, g')
  | IndexError => (IndexError, g')
  end.

(** Criteria with another state selection. *)
Definition with_state (vs : list (option string)) (c : Criteria) : Criteria :=
  {| state := vs; severity := severity c; weather := weather c;
     day := day c; hour_range := hour_range c;
     month_range := month_range c;
     start_date := start_date c; end_date := end_date c |}.

(** Criteria with other ranges. *)
Definition with_ranges (hours months : Z * Z) (dates : date * date)
    (c : Criteria) : Criteria :=
  {| state := state c; severity := severity c; weather := weather c;
     day := day c; hour_range := hours; month_range := months;
     start_date := fst dates; end_date := snd dates |}.

(** Strictly before, in the order of [cmp]. *)
Definition below {A} (cmp : A -> A -> comparison) (a b : A) : Prop :=
  cmp a b = Lt.

(** Whether a cell holds one of the keys. *)
Definition in_keys {A} (eqb : A -> A -> bool) (keys : list A)
    (c : option A) : bool :=
  match c with Some v => existsb (eqb v) keys | None => false end.

(** The sum of the counts of a chart; a null count adds nothing. *)
Definition count_or_zero (n : option nat) : nat :=
  match n with Some k => k | None => 0%nat end.

(* ================================================================== *)
(** * Properties *)

(** ** Boolean indexing *)

Lemma boolean_index_twice (p q : Row -> bool) (df : DataFrame) :
  boolean_index p (boolean_index q df)
  = boolean_index (fun r => q r && p r) df.
Proof.
  unfold boolean_index.
  induction df as [|ir df IH]; simpl; [reflexivity|].
  destruct (q (snd ir)); simpl; [destruct (p (snd ir))|]; now rewrite IH.
Qed.

Lemma boolean_index_ext (p q : Row -> bool) (df : DataFrame) :
  (forall r, p r = q r) -> boolean_index p df = boolean_index q df.
Proof.
  intros E. unfold boolean_index. apply filter_ext. intros ir. apply E.
Qed.

Lemma boolean_index_all (df : DataFrame) :
  boolean_index (fun _ => true) df = df.
Proof.
  unfold boolean_index. induction df as [|ir df IH]; simpl; congruence.
Qed.

Lemma boolean_index_In (p : Row -> bool) (df : DataFrame) (ir : nat * Row) :
  In ir (boolean_index p df) <-> In ir df /\ p (snd ir) = true.
Proof. unfold boolean_index. apply filter_In. Qed.

Lemma boolean_index_Subframe (p : Row -> bool) (df : DataFrame) :
  Subframe (boolean_index p df) df.
Proof.
  unfold boolean_index.
  induction df as [|ir df IH]; simpl.
  - constructor.
  - destruct (p (snd ir)); now constructor.
Qed.

Lemma Subframe_In (a b : DataFrame) :
  Subframe a b -> forall ir, In ir a -> In ir b.
Proof.
  induction 1 as [|ir a b _ IH|ir a b _ IH]; intros x Hx.
  - exact Hx.
  - destruct Hx as [->|Hx]; [now left | right; now apply IH].
  - right. now apply IH.
Qed.

Lemma Subframe_length (a b : DataFrame) :
  Subframe a b -> (len a <= len b)%nat.
Proof. unfold len. induction 1; simpl; lia. Qed.

(** ** The filter as one row-wise condition *)

Lemma isin_step_selected {A} (eqb : A -> A -> bool) (col : Row -> option A)
    (vs : list (option A)) (df : DataFrame) :
  isin_step eqb col vs df
  = boolean_index (fun r => selected eqb vs (col r)) df.
Proof.
  destruct vs as [|v vs]; simpl.
  - symmetry. apply boolean_index_all.
  - reflexivity.
Qed.

Lemma get_filtered_data_keeps (df : DataFrame) (c : Criteria) :
  get_filtered_data df c = boolean_index (keeps c) df.
Proof.
  unfold get_filtered_data, date_step, range_step.
  rewrite !isin_step_selected, !boolean_index_twice.
  apply boolean_index_ext. intros r. unfold keeps.
  now rewrite !andb_assoc.
Qed.

Lemma keeps_calendar (c : Criteria) (r : Row) :
  keeps c r = true ->
  notna (Date r) = true /\ notna (Hour r) = true /\ notna (Month r) = true.
Proof.
  unfold keeps, date_ge, between. intros K.
  destruct (Date r), (Hour r), (Month r); simpl in *;
    rewrite ?andb_false_r in K; try discriminate; auto.
Qed.

(** ** The loaded table *)

Section LoaderFacts.

Variable to_datetime : string -> option Timestamp.

Lemma nth_error_labelled {A B} (f : A -> B) (l : list A) :
  forall s i,
    nth_error (combine (seq s (List.length l)) (map f l)) i
    = option_map (fun a => ((s + i)%nat, f a)) (nth_error l i).
Proof.
  induction l as [|a l IH]; intros s i; simpl.
  - now destruct i.
  - destruct i as [|i]; simpl.
    + now rewrite Nat.add_0_r.
    + rewrite IH. now rewrite Nat.add_succ_r.
Qed.

Lemma load_data_nth_error (csv : list CsvRow) (i : nat) :
  nth_error (load_data to_datetime csv) i
  = option_map (fun r => (i, load_row to_datetime r)) (nth_error csv i).
Proof. unfold load_data. now rewrite nth_error_labelled. Qed.

Lemma load_data_In (csv : list CsvRow) (i : nat) (x : Row) :
  In (i, x) (load_data to_datetime csv) ->
  exists r, nth_error csv i = Some r /\ x = load_row to_datetime r.
Proof.
  intros H. apply In_nth_error in H. destruct H as [k Hk].
  rewrite load_data_nth_error in Hk.
  destruct (nth_error csv k) as [r|] eqn:E; simpl in Hk; [|discriminate].
  injection Hk as <- <-. now exists r.
Qed.

Lemma load_data_len (csv : list CsvRow) :
  len (load_data to_datetime csv) = List.length csv.
Proof.
  unfold len, load_data.
  rewrite length_combine, length_seq, length_map. apply Nat.min_id.
Qed.

Lemma load_data_labels (csv : list CsvRow) :
  map fst (load_data to_datetime csv) = seq 0 (List.length csv).
Proof.
  unfold load_data. generalize 0%nat.
  induction csv as [|r csv IH]; intros s; simpl; [reflexivity|].
  now rewrite IH.
Qed.

Lemma load_row_unparsed (r : CsvRow) :
  parse_cell to_datetime (csv_Start_Time r) = None ->
  let row := load_row to_datetime r in
  Start_Time row = None /\ Date row = None /\ Hour row = None
  /\ Month row = None /\ Day row = None.
Proof. intros E. unfold load_row. simpl. rewrite E. simpl. tauto. Qed.

Lemma load_row_timed (r : CsvRow) :
  let row := load_row to_datetime r in
  notna (Date row) = timed row /\ notna (Hour row) = timed row
  /\ notna (Month row) = timed row /\ notna (Day row) = timed row.
Proof.
  unfold load_row, timed. simpl.
  now destruct (parse_cell to_datetime (csv_Start_Time r)).
Qed.

End LoaderFacts.

(** ** The filter step *)

(** C1: when the selection of a categorical dimension (state, severity,
    weather or weekday) is empty, [get_filtered_data] returns what the
    filter returns with that dimension removed: the empty selection does
    not restrict the rows. *)
Theorem empty_selection_is_no_restriction
    (df : DataFrame) (c : Criteria) (d : Dimension) :
  selection_empty d c ->
  get_filtered_data df c = filtered_without d df c.
Proof.
  intros E. unfold get_filtered_data, filtered_without.
  destruct d; simpl in E; simpl; now rewrite E.
Qed.

Lemma empty_selection_is_no_restriction_witness :
  selection_empty DimSeverity Examples.california
  /\ get_filtered_data Examples.df Examples.california
     = filtered_without DimSeverity Examples.df Examples.california.
Proof.
  split;
    [ reflexivity
    | apply (empty_selection_is_no_restriction
               Examples.df Examples.california DimSeverity); reflexivity ].
Defined.

(** The hour range (6, 9) over the hours 5, 6, 8, 10, 9 and a null. *)
Example hour_range_worked :
  map (between 6 9) [Some 5; Some 6; Some 8; Some 10; Some 9; None]
  = [false; true; true; false; true; false].
Proof. reflexivity. Qed.

(** With every selection empty the rows that parse are all kept. *)
Example empty_selection_keeps_rows :
  map fst (get_filtered_data Examples.df Examples.no_selection)
  = [0; 1; 3; 4]%nat.
Proof. reflexivity. Qed.

(** C2: the filtered table is the base table with some rows left out:
    every row of it, label included, is a row of the base table, in the
    base table's order. *)
Theorem filtered_rows_are_base_rows (df : DataFrame) (c : Criteria) :
  Subframe (get_filtered_data df c) df
  /\ Forall (fun ir => In ir df) (get_filtered_data df c).
Proof.
  rewrite get_filtered_data_keeps. split.
  - apply boolean_index_Subframe.
  - apply Forall_forall. intros ir H.
    now apply boolean_index_In in H.
Qed.

(** The labels of the filtered table stay distinct. *)
Lemma Subframe_labels_NoDup (a b : DataFrame) :
  Subframe a b -> NoDup (map fst b) -> NoDup (map fst a).
Proof.
  induction 1 as [|ir a b S IH|ir a b S IH]; simpl; intros N.
  - exact N.
  - inversion N as [|x l Hx Hl]; subst. constructor; [|now apply IH].
    intros Hin. apply Hx. apply in_map_iff in Hin.
    destruct Hin as [y [Ey Hy]]. apply in_map_iff. exists y.
    split; [exact Ey | now apply (Subframe_In _ _ S)].
  - inversion N; subst. now apply IH.
Qed.

(** C3: [get_filtered_data] is a function of the table and the criteria
    alone (equal arguments give equal results, and the arguments are
    values it cannot change), and filtering the filtered table again with
    the same criteria returns it unchanged. *)
Theorem get_filtered_data_deterministic_idempotent
    (df : DataFrame) (c : Criteria) :
  (forall df' c', df' = df -> c' = c ->
     get_filtered_data df' c' = get_filtered_data df c)
  /\ get_filtered_data (get_filtered_data df c) c = get_filtered_data df c.
Proof.
  split.
  - intros df' c' -> ->. reflexivity.
  - rewrite !get_filtered_data_keeps, boolean_index_twice.
    apply boolean_index_ext. intros r. apply andb_diag.
Qed.

Lemma get_filtered_data_deterministic_idempotent_witness :
  get_filtered_data Examples.df Examples.california
  = get_filtered_data Examples.df Examples.california
  /\ get_filtered_data
       (get_filtered_data Examples.df Examples.california)
       Examples.california
     = get_filtered_data Examples.df Examples.california.
Proof.
  destruct (get_filtered_data_deterministic_idempotent
              Examples.df Examples.california) as [D I].
  split; [apply D; reflexivity | exact I].
Defined.

(** ** Rows without a timestamp *)

Lemma boolean_index_ext_in (p q : Row -> bool) (df : DataFrame) :
  (forall ir, In ir df -> p (snd ir) = q (snd ir)) ->
  boolean_index p df = boolean_index q df.
Proof. intros E. unfold boolean_index. now apply filter_ext_in. Qed.

Lemma values_notna {A} (col : Row -> option A) (df : DataFrame) :
  values col (boolean_index (fun r => notna (col r)) df) = values col df.
Proof.
  unfold values, boolean_index.
  induction df as [|ir df IH]; simpl; [reflexivity|].
  destruct (col (snd ir)) as [v|] eqn:E; simpl; [rewrite E; simpl|];
    now rewrite IH.
Qed.

Lemma group_size_notna {A} (eqb : A -> A -> bool) (col : Row -> option A)
    (k : A) (df : DataFrame) :
  group_size eqb col k (boolean_index (fun r => notna (col r)) df)
  = group_size eqb col k df.
Proof.
  unfold group_size. rewrite boolean_index_twice. f_equal.
  apply boolean_index_ext. intros r. now destruct (col r).
Qed.

(** A group-by ignores the rows whose key is null. *)
Lemma groupby_size_notna {A} (cmp : A -> A -> comparison)
    (eqb : A -> A -> bool) (col : Row -> option A) (df : DataFrame) :
  groupby_size cmp eqb col (boolean_index (fun r => notna (col r)) df)
  = groupby_size cmp eqb col df.
Proof.
  unfold groupby_size, unique_sorted. rewrite values_notna.
  apply map_ext. intros k. now rewrite group_size_notna.
Qed.

Lemma groupby_size_categorical_notna (cats : list string)
    (col : Row -> option string) (df : DataFrame) :
  groupby_size_categorical cats col
    (boolean_index (fun r => notna (col r)) df)
  = groupby_size_categorical cats col df.
Proof.
  unfold groupby_size_categorical.
  apply map_ext. intros k. now rewrite group_size_notna.
Qed.

Lemma isin_names_null (names : list string) :
  isin String.eqb (map Some names) None = false.
Proof. unfold isin. induction names as [|n names IH]; simpl; auto. Qed.

Lemma unparsed_not_filtered (to_datetime : string -> option Timestamp)
    (csv : list CsvRow) (c : Criteria) (i : nat) (r : CsvRow) :
  nth_error csv i = Some r ->
  parse_cell to_datetime (csv_Start_Time r) = None ->
  ~ In i (map fst (get_filtered_data (load_data to_datetime csv) c)).
Proof.
  intros Hi Hp Hin. apply in_map_iff in Hin.
  destruct Hin as [[j x] [Ej Hx]]. simpl in Ej. subst j.
  rewrite get_filtered_data_keeps in Hx.
  apply boolean_index_In in Hx. destruct Hx as [Hx K]. simpl in K.
  apply load_data_In in Hx. destruct Hx as [r' [Hi' ->]].
  rewrite Hi in Hi'. injection Hi' as <-.
  apply keeps_calendar in K. destruct K as [K _].
  destruct (load_row_unparsed to_datetime r Hp) as [_ [D _]].
  rewrite D in K. discriminate.
Qed.

(** X17: a row whose timestamp does not parse is kept by the loader, under
    its own label, with a null timestamp and null date, hour, month and
    weekday; every time-based mask is False on it, so no filtered table
    contains it; and the counts by hour, month and weekday, taken over
    any part of the loaded table, are the counts over its rows that have a
    timestamp. *)
Theorem unparsable_timestamp_rows_are_null_and_left_out
    (to_datetime : string -> option Timestamp) (csv : list CsvRow) :
  let df := load_data to_datetime csv in
  len df = List.length csv
  /\ map fst df = seq 0 (List.length csv)
  /\ (forall i r,
        nth_error csv i = Some r ->
        parse_cell to_datetime (csv_Start_Time r) = None ->
        let row := load_row to_datetime r in
        nth_error df i = Some (i, row)
        /\ (Start_Time row = None /\ Date row = None /\ Hour row = None
            /\ Month row = None /\ Day row = None)
        /\ (forall d, date_ge (Date row) d = false
                      /\ date_le (Date row) d = false)
        /\ (forall lo hi, between lo hi (Hour row) = false
                          /\ between lo hi (Month row) = false)
        /\ (forall names, isin String.eqb (map Some names) (Day row) = false)
        /\ (forall c, ~ In i (map fst (get_filtered_data df c))))
  /\ (forall f cats,
        Subframe f df ->
        fig2_data f = fig2_data (boolean_index timed f)
        /\ fig4_data f = fig4_data (boolean_index timed f)
        /\ fig3_data cats f = fig3_data cats (boolean_index timed f)).
Proof.
  intros df. split; [apply load_data_len|].
  split; [apply load_data_labels|]. split.
  - intros i r Hi Hp row.
    destruct (load_row_unparsed to_datetime r Hp) as [T [D [H [M W]]]].
    fold row in T, D, H, M, W.
    split; [unfold df; now rewrite load_data_nth_error, Hi|].
    split; [tauto|]. rewrite D, H, M, W.
    split; [now split|]. split; [now split|].
    split; [apply isin_names_null|].
    intros c. now apply unparsed_not_filtered with (r := r).
  - intros f cats S.
    assert (L : forall ir, In ir f ->
              let row := snd ir in
              timed row = notna (Hour row) /\ timed row = notna (Month row)
              /\ timed row = notna (Day row)).
    { intros [i x] Hin. apply (Subframe_In _ _ S) in Hin.
      apply load_data_In in Hin. destruct Hin as [r [_ ->]].
      destruct (load_row_timed to_datetime r) as [_ [H [M W]]].
      cbv zeta in *. cbn [snd]. now rewrite H, M, W. }
    unfold fig2_data, fig4_data, fig3_data.
    split; [|split].
    + rewrite (boolean_index_ext_in timed (fun r => notna (Hour r)) f)
        by (intros ir Hin; apply (L ir Hin)).
      now rewrite groupby_size_notna.
    + rewrite (boolean_index_ext_in timed (fun r => notna (Month r)) f)
        by (intros ir Hin; apply (L ir Hin)).
      now rewrite groupby_size_notna.
    + rewrite (boolean_index_ext_in timed (fun r => notna (Day r)) f)
        by (intros ir Hin; apply (L ir Hin)).
      now rewrite groupby_size_categorical_notna.
Qed.

(** C10: every row of the filtered table has a date, an hour and a month;
    the filtered table is the one the base table without its rows lacking
    any of them would give, so whatever is computed from it leaves those
    rows out; and a row of the loaded table whose timestamp did not parse
    is in no filtered table. *)
Theorem filtered_rows_have_calendar_fields (df : DataFrame) (c : Criteria) :
  Forall (fun ir => notna (Date (snd ir)) = true
                    /\ notna (Hour (snd ir)) = true
                    /\ notna (Month (snd ir)) = true)
         (get_filtered_data df c)
  /\ get_filtered_data df c
     = get_filtered_data
         (boolean_index
            (fun r => notna (Date r) && notna (Hour r) && notna (Month r)) df)
         c
  /\ (forall to_datetime csv i r,
        df = load_data to_datetime csv ->
        nth_error csv i = Some r ->
        parse_cell to_datetime (csv_Start_Time r) = None ->
        ~ In i (map fst (get_filtered_data df c))).
Proof.
  split; [|split].
  - apply Forall_forall. intros ir H.
    rewrite get_filtered_data_keeps in H. apply boolean_index_In in H.
    now apply keeps_calendar with (c := c).
  - rewrite !get_filtered_data_keeps, boolean_index_twice.
    apply boolean_index_ext. intros r.
    destruct (keeps c r) eqn:K.
    + apply keeps_calendar in K. destruct K as [D [H M]].
      now rewrite D, H, M.
    + now rewrite andb_false_r.
  - intros to_datetime csv i r -> Hi Hp.
    now apply unparsed_not_filtered with (r := r).
Qed.

Lemma unparsable_timestamp_rows_are_null_and_left_out_witness :
  nth_error Examples.csv 2 = Some Examples.unparsable
  /\ parse_cell Examples.to_datetime (csv_Start_Time Examples.unparsable)
     = None
  /\ Subframe Examples.df Examples.df
  /\ nth_error Examples.df 2
     = Some (2%nat, load_row Examples.to_datetime Examples.unparsable)
  /\ ~ In 2%nat
         (map fst (get_filtered_data Examples.df Examples.no_selection))
  /\ fig2_data Examples.df
     = fig2_data (boolean_index timed Examples.df).
Proof.
  assert (S : Subframe Examples.df Examples.df)
    by (unfold Examples.df, load_data; simpl; repeat constructor).
  destruct (unparsable_timestamp_rows_are_null_and_left_out
              Examples.to_datetime Examples.csv) as [_ [_ [R A]]].
  destruct (R 2%nat Examples.unparsable eq_refl eq_refl)
    as [N [_ [_ [_ [_ X]]]]].
  destruct (A Examples.df [] S) as [H _].
  split; [reflexivity|]. split; [reflexivity|]. split; [exact S|].
  split; [exact N|]. split; [apply X | exact H].
Defined.

Lemma filtered_rows_have_calendar_fields_witness :
  Examples.df = load_data Examples.to_datetime Examples.csv
  /\ nth_error Examples.csv 2 = Some Examples.unparsable
  /\ parse_cell Examples.to_datetime (csv_Start_Time Examples.unparsable)
     = None
  /\ ~ In 2%nat
         (map fst (get_filtered_data Examples.df Examples.no_selection)).
Proof.
  destruct (filtered_rows_have_calendar_fields
              Examples.df Examples.no_selection) as [_ [_ X]].
  split; [reflexivity|]. split; [reflexivity|]. split; [reflexivity|].
  apply (X Examples.to_datetime Examples.csv 2%nat Examples.unparsable);
    reflexivity.
Defined.

(** ** Counts by weekday *)

Lemma insert_uniq_In (a x : string) (l : list string) :
  In x (insert_uniq String.compare a l) <-> x = a \/ In x l.
Proof.
  induction l as [|y l IH]; simpl.
  - intuition.
  - destruct (String.compare a y) eqn:E; simpl.
    + apply String.compare_eq_iff in E. subst y. intuition.
    + intuition.
    + rewrite IH. intuition.
Qed.

Lemma categories_In (col : Row -> option string) (df : DataFrame)
    (k : string) :
  In k (categories col df) <-> In k (values col df).
Proof.
  unfold categories, unique_sorted.
  induction (values col df) as [|v vs IH]; simpl.
  - tauto.
  - rewrite insert_uniq_In, IH. intuition.
Qed.

Lemma values_In (col : Row -> option string) (df : DataFrame) (k : string) :
  In k (values col df) <-> exists ir, In ir df /\ col (snd ir) = Some k.
Proof.
  unfold values. rewrite in_flat_map. split.
  - intros [ir [Hin Hk]]. exists ir. split; [exact Hin|].
    destruct (col (snd ir)); simpl in Hk; [|contradiction].
    destruct Hk as [->|[]]. reflexivity.
  - intros [ir [Hin E]]. exists ir. split; [exact Hin|].
    rewrite E. now left.
Qed.

Lemma option_eqb_Some (c : option string) (k : string) :
  option_eqb String.eqb c (Some k) = true <-> c = Some k.
Proof.
  destruct c as [x|]; simpl.
  - rewrite String.eqb_eq. split; congruence.
  - split; discriminate.
Qed.

(** A value is a category exactly when some row of the table has it. *)
Lemma categories_occurs (col : Row -> option string) (df : DataFrame)
    (k : string) :
  existsb (String.eqb k) (categories col df) = occurs col k df.
Proof.
  apply eq_true_iff_eq. unfold occurs. rewrite !existsb_exists. split.
  - intros [x [Hx E]]. apply String.eqb_eq in E. subst x.
    apply categories_In, values_In in Hx. destruct Hx as [ir [Hin Hk]].
    exists ir. split; [exact Hin | now apply option_eqb_Some].
  - intros [ir [Hin E]]. apply option_eqb_Some in E.
    exists k. split; [|apply String.eqb_refl].
    apply categories_In, values_In. now exists ir.
Qed.

Lemma series_get_groupby (cats : list string) (col : Row -> option string)
    (df : DataFrame) (k : string) :
  series_get k (groupby_size_categorical cats col df)
  = if existsb (String.eqb k) cats
    then Some (group_size String.eqb col k df)
    else None.
Proof.
  unfold groupby_size_categorical.
  induction cats as [|x cats IH]; simpl; [reflexivity|].
  destruct (String.eqb k x) eqn:E; simpl.
  - apply String.eqb_eq in E. now subst x.
  - exact IH.
Qed.

(** ** Counts by state *)

Lemma insert_desc_perm (b : bool) (x : string * nat)
    (l : list (string * nat)) :
  Permutation (insert_desc b x l) (x :: l).
Proof.
  induction l as [|y l IH]; simpl; [reflexivity|].
  destruct (if b then (snd y <=? snd x)%nat else (snd y <? snd x)%nat).
  - reflexivity.
  - rewrite IH. apply perm_swap.
Qed.

Lemma insert_desc_sorted (b : bool) (x : string * nat)
    (l : list (string * nat)) :
  StronglySorted count_ge l -> StronglySorted count_ge (insert_desc b x l).
Proof.
  induction 1 as [|y l S IH F]; simpl.
  - repeat constructor.
  - destruct (if b then (snd y <=? snd x)%nat else (snd y <? snd x)%nat)
      eqn:E.
    + assert (L : (snd y <= snd x)%nat).
      { destruct b; [apply Nat.leb_le in E | apply Nat.ltb_lt in E]; lia. }
      constructor; [now constructor|].
      constructor; [exact L|].
      eapply Forall_impl; [|exact F]. unfold count_ge. intros; lia.
    + assert (L : (snd x <= snd y)%nat).
      { destruct b; [apply Nat.leb_gt in E | apply Nat.ltb_ge in E]; lia. }
      constructor; [exact IH|].
      eapply Permutation_Forall.
      * symmetry. apply insert_desc_perm.
      * constructor; [exact L | exact F].
Qed.

(** Both insertion sorts are descending sorts. *)
Lemma sort_desc_sorts (b : bool) : sorts_descending (sort_desc b).
Proof.
  intros l. unfold sort_desc.
  induction l as [|x l [P S]]; simpl.
  - split; [reflexivity | constructor].
  - split.
    + rewrite insert_desc_perm. now constructor.
    + now apply insert_desc_sorted.
Qed.

(** The one with [ties_kept] is stable: the entries of any one count come
    out in the order they went in. *)
Lemma stable_sort_desc_keeps_ties (n : nat) (l : list (string * nat)) :
  filter (fun g => (snd g =? n)%nat) (stable_sort_desc l)
  = filter (fun g => (snd g =? n)%nat) l.
Proof.
  unfold stable_sort_desc, sort_desc.
  induction l as [|x l IH]; simpl; [reflexivity|].
  rewrite <- IH. clear IH.
  assert (S : StronglySorted count_ge (fold_right (insert_desc true) [] l))
    by apply (sort_desc_sorts true).
  induction S as [|y s S IH F]; simpl; [reflexivity|].
  destruct (snd y <=? snd x)%nat eqn:E; simpl; [reflexivity|].
  apply Nat.leb_gt in E. rewrite IH.
  destruct (snd x =? n)%nat eqn:Ex, (snd y =? n)%nat eqn:Ey;
    try reflexivity.
  apply Nat.eqb_eq in Ex, Ey. lia.
Qed.

Lemma StronglySorted_app_inv (l1 l2 : list (string * nat)) :
  StronglySorted count_ge (l1 ++ l2) ->
  StronglySorted count_ge l1
  /\ Forall (fun g => Forall (fun o => count_ge o g) l1) l2.
Proof.
  induction l1 as [|x l1 IH]; simpl; intros S.
  - split; [constructor|]. apply Forall_forall. intros; constructor.
  - inversion S as [|y l S' F]; subst.
    destruct (IH S') as [S1 F1].
    apply Forall_app in F. destruct F as [Fa Fb].
    split; [now constructor|].
    rewrite Forall_forall in *. intros g Hg.
    constructor; [now apply Fb | now apply F1].
Qed.

(** C9, as the code has it: whatever descending sort [sort_values] is, the
    state counts are the first 15 entries of the per-state counts put in
    descending order, so they are in descending order and no state left
    out has more accidents than a state listed.  The order among states
    with equal counts is the one the sort happens to produce. *)
Theorem state_counts_top_15_descending
    (sort_values : list (string * nat) -> list (string * nat))
    (cats : list string) (filtered_df : DataFrame) :
  sorts_descending sort_values ->
  let groups := groupby_size_categorical cats State filtered_df in
  let out := state_counts sort_values cats filtered_df in
  List.length out = Nat.min 15 (List.length cats)
  /\ StronglySorted count_ge out
  /\ exists rest,
       Permutation (out ++ rest) groups
       /\ Forall (fun g => Forall (fun o => count_ge o g) out) rest.
Proof.
  intros H groups out.
  assert (Eo : out = firstn 15 (sort_values groups)) by reflexivity.
  clearbody out. subst out.
  destruct (H groups) as [P S].
  assert (E : firstn 15 (sort_values groups)
              ++ skipn 15 (sort_values groups) = sort_values groups)
    by apply firstn_skipn.
  rewrite <- E in S. apply StronglySorted_app_inv in S.
  destruct S as [S F].
  split; [|split; [exact S|]].
  - rewrite length_firstn, (Permutation_length P).
    unfold groups, groupby_size_categorical. now rewrite length_map.
  - exists (skipn 15 (sort_values groups)). split; [|exact F].
    now rewrite E.
Qed.

Lemma state_counts_top_15_descending_witness :
  sorts_descending (sort_desc true)
  /\ List.length
       (state_counts (sort_desc true) (categories State Examples.states_df)
          (get_filtered_data Examples.states_df Examples.no_selection))
     = Nat.min 15 (List.length (categories State Examples.states_df))
  /\ StronglySorted count_ge
       (state_counts (sort_desc true) (categories State Examples.states_df)
          (get_filtered_data Examples.states_df Examples.no_selection)).
Proof.
  split; [apply sort_desc_sorts|].
  destruct (state_counts_top_15_descending (sort_desc true)
              (categories State Examples.states_df)
              (get_filtered_data Examples.states_df Examples.no_selection)
              (sort_desc_sorts true)) as [L [S _]].
  split; [exact L | exact S].
Defined.

(** C9, as stated, fails: a descending sort need not keep equal counts in
    the order of the grouping, and pandas' default one is not stable.
    The table has twenty states, three of them with 3 accidents, six with
    2 and eleven with 1; the grouping lists the states alphabetically, and
    a descending sort is free to return NJ, KS, CA for the three largest
    where the grouping has CA, KS, NJ. *)
Lemma state_counts_ties_not_in_group_order :
  ~ (forall sort_values : list (string * nat) -> list (string * nat),
       sorts_descending sort_values ->
       state_counts sort_values (categories State Examples.states_df)
         (get_filtered_data Examples.states_df Examples.no_selection)
       = head 15
           (stable_sort_desc
              (groupby_size_categorical
                 (categories State Examples.states_df) State
                 (get_filtered_data Examples.states_df
                    Examples.no_selection)))).
Proof.
  intros H.
  specialize (H (sort_desc false) (sort_desc_sorts false)).
  vm_compute in H. discriminate H.
Qed.

Example state_counts_worked :
  map fst
    (head 15
       (stable_sort_desc
          (groupby_size_categorical (categories State Examples.states_df)
             State
             (get_filtered_data Examples.states_df Examples.no_selection))))
  = ["CA"; "KS"; "NJ"; "AL"; "CT"; "IL"; "LA"; "MI"; "NY"; "AZ"; "CO";
     "FL"; "GA"; "IN"; "KY"]
  /\ map fst
       (state_counts (sort_desc false) (categories State Examples.states_df)
          (get_filtered_data Examples.states_df Examples.no_selection))
     = ["NJ"; "KS"; "CA"; "NY"; "MI"; "LA"; "IL"; "CT"; "AL"; "TX"; "NC";
        "MN"; "MD"; "MA"; "KY"].
Proof. split; reflexivity. Qed.

(** ** Average severity *)

Lemma rint_close (y : Q) :
  (y - (1 # 2) <= inject_Z (rint y) <= y + (1 # 2))%Q.
Proof.
  unfold rint.
  pose proof (Qfloor_le y) as L. pose proof (Qlt_floor y) as U.
  rewrite inject_Z_plus in U.
  destruct (Qcompare (y - inject_Z (Qfloor y)) (1 # 2)) eqn:C;
    [ apply Qeq_alt in C; destruct (Z.even (Qfloor y))
    | apply Qlt_alt in C
    | apply Qgt_alt in C ];
    rewrite ?inject_Z_plus;
    change (inject_Z 1) with 1%Q in *;
    generalize dependent (inject_Z (Qfloor y)); intros f; intros; lra.
Qed.

(** [round2] moves a number by at most half a hundredth. *)
Lemma round2_close (q : Q) :
  (q - (1 # 200) <= round2 q <= q + (1 # 200))%Q.
Proof.
  unfold round2. pose proof (rint_close (q * 100)) as R.
  rewrite (Qmake_Qdiv (rint (q * 100)) 100).
  change (inject_Z (Z.pos 100)) with 100%Q.
  set (z := inject_Z (rint (q * 100))) in *.
  assert (E : (z / 100 == z * (1 # 100))%Q) by (unfold Qdiv; reflexivity).
  rewrite E. lra.
Qed.

Lemma round2_rounds_to_hundredths : rounds_to_hundredths round2.
Proof.
  intros q. exists (rint (q * 100)). split; [reflexivity|].
  apply rint_close.
Qed.

(** C7, as the code has it: the metric is 0 for a table without rows; for
    any other table it is the mean of the severity column rounded to two
    decimals, that is a whole number of hundredths at most half a
    hundredth away from the mean (NaN when every severity is null).
    Which way a mean half-way between two hundredths goes is left to the
    rounding. *)
Theorem average_severity_rounded_mean
    (round_2 : Q -> Q) (filtered_df : DataFrame) :
  rounds_to_hundredths round_2 ->
  (len filtered_df = 0%nat ->
     average_severity round_2 filtered_df = Some 0%Q)
  /\ ((0 < len filtered_df)%nat ->
      forall m, mean (values Severity filtered_df) = Some m ->
      exists k : Z,
        same_number (average_severity round_2 filtered_df) (Some (k # 100))
        /\ (m * 100 - (1 # 2) <= inject_Z k <= m * 100 + (1 # 2))%Q)
  /\ ((0 < len filtered_df)%nat ->
      mean (values Severity filtered_df) = None ->
      average_severity round_2 filtered_df = None).
Proof.
  intros R. unfold average_severity. split; [|split].
  - intros ->. reflexivity.
  - intros P m E. apply Nat.ltb_lt in P. rewrite P, E. simpl.
    destruct (R m) as [k [Ek Hk]]. exists k. split; [exact Ek | exact Hk].
  - intros P E. apply Nat.ltb_lt in P. now rewrite P, E.
Qed.

Lemma average_severity_rounded_mean_witness :
  rounds_to_hundredths round2
  /\ len ([] : DataFrame) = 0%nat
  /\ average_severity round2 [] = Some 0%Q
  /\ (0 < len (get_filtered_data Examples.dated_df Examples.california))%nat
  /\ mean (values Severity
             (get_filtered_data Examples.dated_df Examples.california))
     = Some (4 # 3)%Q
  /\ exists k : Z,
       same_number
         (average_severity round2
            (get_filtered_data Examples.dated_df Examples.california))
         (Some (k # 100))
       /\ ((4 # 3) * 100 - (1 # 2) <= inject_Z k
           <= (4 # 3) * 100 + (1 # 2))%Q.
Proof.
  destruct (average_severity_rounded_mean round2 []
              round2_rounds_to_hundredths) as [Z _].
  destruct (average_severity_rounded_mean round2
              (get_filtered_data Examples.dated_df Examples.california)
              round2_rounds_to_hundredths) as [_ [M _]].
  split; [exact round2_rounds_to_hundredths|].
  split; [reflexivity|]. split; [apply Z; reflexivity|].
  split; [vm_compute; lia|]. split; [reflexivity|].
  apply M; [vm_compute; lia | reflexivity].
Defined.

(** C7, as stated, fails, whichever way the rounding takes its ties: the
    three Californian accidents have severities 1, 2 and 1; their mean is
    4/3, which is no whole number of hundredths, and the metric is one
    (1.33). *)
Lemma average_severity_is_not_the_mean :
  ~ (exists round_2 : Q -> Q,
       rounds_to_hundredths round_2
       /\ forall filtered_df : DataFrame,
            (len filtered_df = 0%nat ->
               average_severity round_2 filtered_df = Some 0%Q)
            /\ ((0 < len filtered_df)%nat ->
                same_number (average_severity round_2 filtered_df)
                            (mean (values Severity filtered_df)))).
Proof.
  intros [round_2 [R H]].
  destruct (H (get_filtered_data Examples.dated_df Examples.california))
    as [_ M].
  assert (P : (0 < len (get_filtered_data Examples.dated_df
                          Examples.california))%nat)
    by (vm_compute; lia).
  specialize (M P).
  change (round_2 (4 # 3) == 4 # 3)%Q in M.
  destruct (R (4 # 3)%Q) as [k [Ek _]]. rewrite Ek in M.
  unfold Qeq in M. simpl in M. lia.
Qed.

Example average_severity_worked :
  values Severity (get_filtered_data Examples.dated_df Examples.california)
  = [1; 2; 1]
  /\ average_severity round2
       (get_filtered_data Examples.dated_df Examples.california)
     = Some (133 # 100)%Q.
Proof. split; reflexivity. Qed.

(** ** Map points *)

Lemma take_inside (positions : list nat) (df : DataFrame) :
  Forall (fun i => (i < len df)%nat) positions ->
  exists out,
    take positions df = Ok out
    /\ len out = List.length positions
    /\ Forall (fun ir => In ir df) out.
Proof.
  induction 1 as [|i positions Hi _ [out [E [L F]]]]; simpl.
  - exists []. repeat split. constructor.
  - destruct (nth_error df i) as [ir|] eqn:N.
    + rewrite E. exists (ir :: out). split; [reflexivity|].
      split; [unfold len in *; simpl; now rewrite L|].
      constructor; [now apply nth_error_In with (n := i) | exact F].
    + apply nth_error_None in N. unfold len in Hi. lia.
Qed.

(** C5: given that [choice] returns as many positions as it is asked for,
    all inside the population: within the map's cap the points are all
    the filtered rows that have coordinates; above the cap they are
    exactly cap rows, drawn from those; neither case raises, and the
    outcome does not depend on the state of the process-wide generator,
    which is left as it was: the draw is seeded afresh with 42 every
    time. *)
Theorem map_df_within_cap_or_sampled
    (RandomState : Type) (RandomState_of_seed : Z -> RandomState)
    (choice : RandomState -> nat -> nat -> list nat * RandomState)
    (filtered_df : DataFrame) (map_points : nat) (g : RandomState) :
  draws_positions choice ->
  let points := dropna has_coordinates filtered_df in
  ((len points <= map_points)%nat ->
     map_df RandomState_of_seed choice filtered_df map_points g
     = (Ok points, g))
  /\ ((map_points < len points)%nat ->
      exists out,
        map_df RandomState_of_seed choice filtered_df map_points g
        = (Ok out, g)
        /\ len out = map_points
        /\ Forall (fun ir => In ir points) out)
  /\ (forall g',
        fst (map_df RandomState_of_seed choice filtered_df map_points g')
        = fst (map_df RandomState_of_seed choice filtered_df map_points g)).
Proof.
  intros C points. unfold map_df. fold points. split; [|split].
  - intros L. apply Nat.ltb_ge in L. now rewrite L.
  - intros L. pose proof L as L'. apply Nat.ltb_lt in L'. rewrite L'.
    unfold sample.
    assert (N : (len points <? map_points)%nat = false)
      by (apply Nat.ltb_ge; lia).
    rewrite N.
    destruct (C (RandomState_of_seed 42) (len points) map_points)
      as [Cl Cb]; [lia|].
    destruct (choice (RandomState_of_seed 42) (len points) map_points)
      as [positions rs'].
    simpl in Cl, Cb.
    destruct (take_inside positions points Cb) as [out [E [Lo F]]].
    exists out. rewrite E. repeat split; [congruence | exact F].
  - intros g'. destruct (map_points <? len points)%nat; [|reflexivity].
    unfold sample. destruct (len points <? map_points)%nat; [reflexivity|].
    now destruct (choice (RandomState_of_seed 42) (len points) map_points).
Qed.

Lemma example_choice_draws_positions : draws_positions Examples.choice.
Proof.
  intros rs a n L. unfold Examples.choice. simpl.
  destruct (Nat.even rs).
  - split; [apply length_seq|].
    apply Forall_forall. intros i Hi. apply in_seq in Hi. lia.
  - split; [apply length_seq|].
    apply Forall_forall. intros i Hi. apply in_seq in Hi. lia.
Qed.

Lemma map_df_within_cap_or_sampled_witness :
  draws_positions Examples.choice
  /\ (len (dropna has_coordinates
             (get_filtered_data Examples.df Examples.no_selection))
      <= 5)%nat
  /\ map_df Examples.RandomState_of_seed Examples.choice
       (get_filtered_data Examples.df Examples.no_selection) 5 7%nat
     = (Ok (dropna has_coordinates
              (get_filtered_data Examples.df Examples.no_selection)), 7%nat)
  /\ (2 < len (dropna has_coordinates
                 (get_filtered_data Examples.df Examples.no_selection)))%nat
  /\ exists out,
       map_df Examples.RandomState_of_seed Examples.choice
         (get_filtered_data Examples.df Examples.no_selection) 2 7%nat
       = (Ok out, 7%nat)
       /\ len out = 2%nat
       /\ Forall (fun ir =>
                    In ir (dropna has_coordinates
                             (get_filtered_data Examples.df
                                Examples.no_selection)))
                 out.
Proof.
  split; [exact example_choice_draws_positions|].
  split; [vm_compute; lia|].
  split.
  - apply (map_df_within_cap_or_sampled nat Examples.RandomState_of_seed
             Examples.choice
             (get_filtered_data Examples.df Examples.no_selection)
             5%nat 7%nat example_choice_draws_positions).
    vm_compute; lia.
  - split; [vm_compute; lia|].
    apply (map_df_within_cap_or_sampled nat Examples.RandomState_of_seed
             Examples.choice
             (get_filtered_data Examples.df Examples.no_selection)
             2%nat 7%nat example_choice_draws_positions).
    vm_compute; lia.
Defined.

Example map_df_worked :
  option_map (map fst)
    (match fst (map_df Examples.RandomState_of_seed Examples.choice
                  (get_filtered_data Examples.df Examples.no_selection)
                  2 7%nat) with
     | Ok out => Some out
     | _ => None
     end)
  = Some [0; 1]%nat.
Proof. reflexivity. Qed.

(** ** Correlation *)

Lemma filter_of_map {A B} (p : B -> bool) (f : A -> B) (l : list A) :
  filter p (map f l) = map f (filter (fun a => p (f a)) l).
Proof.
  induction l as [|a l IH]; simpl; [reflexivity|].
  destruct (p (f a)); simpl; now rewrite IH.
Qed.

Lemma corr_df_complete_rows (df : DataFrame) :
  corr_df df = select_corr_cols (boolean_index fully_populated df).
Proof.
  unfold corr_df, dropna_any, select_corr_cols, boolean_index.
  now rewrite filter_of_map.
Qed.

(** C6: the frame handed to the correlation is made of exactly the
    filtered rows that have severity, visibility, temperature and wind
    speed, none of its cells is null, and when there is no such row the
    tab shows its warning and no matrix is computed. *)
Theorem correlation_only_on_complete_rows
    (Matrix : Type) (corr : list (nat * CorrRow) -> Matrix)
    (filtered_df : DataFrame) :
  let complete := boolean_index fully_populated filtered_df in
  corr_df filtered_df = select_corr_cols complete
  /\ Forall (fun ir => corr_complete (snd ir) = true) (corr_df filtered_df)
  /\ (len complete = 0%nat ->
      correlation_tab corr filtered_df
      = Warning "Not enough data available for correlation heatmap.")
  /\ ((0 < len complete)%nat ->
      correlation_tab corr filtered_df
      = Heatmap (corr (select_corr_cols complete))).
Proof.
  intros complete. split; [apply corr_df_complete_rows|]. split.
  - apply Forall_forall. intros ir H. unfold corr_df, dropna_any in H.
    now apply filter_In in H.
  - unfold correlation_tab. rewrite corr_df_complete_rows. fold complete.
    unfold select_corr_cols. rewrite length_map.
    unfold len. split; intros L.
    + now rewrite L.
    + destruct (List.length complete); [lia | reflexivity].
Qed.

Lemma correlation_only_on_complete_rows_witness :
  len (boolean_index fully_populated
         (get_filtered_data Examples.df Examples.fog)) = 0%nat
  /\ correlation_tab Examples.corr
       (get_filtered_data Examples.df Examples.fog)
     = Warning "Not enough data available for correlation heatmap."
  /\ (0 < len (boolean_index fully_populated
                 (get_filtered_data Examples.df Examples.no_selection)))%nat
  /\ correlation_tab Examples.corr
       (get_filtered_data Examples.df Examples.no_selection)
     = Heatmap (Examples.corr
                  (select_corr_cols
                     (boolean_index fully_populated
                        (get_filtered_data Examples.df
                           Examples.no_selection)))).
Proof.
  destruct (correlation_only_on_complete_rows nat Examples.corr
              (get_filtered_data Examples.df Examples.fog))
    as [_ [_ [W _]]].
  destruct (correlation_only_on_complete_rows nat Examples.corr
              (get_filtered_data Examples.df Examples.no_selection))
    as [_ [_ [_ H]]].
  split; [reflexivity|]. split; [apply W; reflexivity|].
  split; [vm_compute; lia | apply H; vm_compute; lia].
Defined.

(* ================================================================== *)
(** * Further properties *)

(** ** The filter, row by row *)

Lemma date_leb_trans (a b c : date) :
  date_leb a b = true -> date_leb b c = true -> date_leb a c = true.
Proof.
  unfold date_leb. destruct a, b, c. simpl.
  rewrite !orb_true_iff, !andb_true_iff, !orb_true_iff, !andb_true_iff,
    !Z.ltb_lt, !Z.eqb_eq, !Z.leb_le.
  lia.
Qed.

Lemma option_eqb_eq {A} (eqb : A -> A -> bool) :
  (forall x y, eqb x y = true <-> x = y) ->
  forall a b : option A, option_eqb eqb a b = true <-> a = b.
Proof.
  intros E [x|] [y|]; simpl; try (split; congruence).
  rewrite E. split; congruence.
Qed.

Lemma isin_In {A} (eqb : A -> A -> bool) :
  (forall x y, eqb x y = true <-> x = y) ->
  forall values c, isin eqb values c = true <-> In c values.
Proof.
  intros E values c. unfold isin. rewrite existsb_exists. split.
  - intros [v [Hv H]]. apply (option_eqb_eq eqb E) in H. now subst.
  - intros H. exists c. split; [exact H|]. now apply (option_eqb_eq eqb E).
Qed.

Lemma selected_iff {A} (eqb : A -> A -> bool) :
  (forall x y, eqb x y = true <-> x = y) ->
  forall values c,
    selected eqb values c = true <-> values = [] \/ In c values.
Proof.
  intros E values c. destruct values as [|v vs].
  - simpl. intuition.
  - unfold selected. rewrite (isin_In eqb E). split; [now right|].
    intros [H|H]; [discriminate | exact H].
Qed.

Lemma between_iff (lo hi : Z) (c : option Z) :
  between lo hi c = true <-> exists x, c = Some x /\ lo <= x <= hi.
Proof.
  destruct c as [x|]; simpl.
  - rewrite andb_true_iff, !Z.leb_le. split.
    + intros H. now exists x.
    + intros [y [E H]]. injection E as ->. exact H.
  - split; [discriminate | intros [x [E _]]; discriminate].
Qed.

Lemma keeps_iff (c : Criteria) (r : Row) :
  keeps c r = true
  <-> (exists d, Date r = Some d
                 /\ date_leb (start_date c) d = true
                 /\ date_leb d (end_date c) = true)
      /\ (state c = [] \/ In (State r) (state c))
      /\ (severity c = [] \/ In (Severity r) (severity c))
      /\ (weather c = [] \/ In (Weather_Condition r) (weather c))
      /\ (day c = [] \/ In (Day r) (day c))
      /\ (exists h, Hour r = Some h
                    /\ fst (hour_range c) <= h <= snd (hour_range c))
      /\ (exists m, Month r = Some m
                    /\ fst (month_range c) <= m <= snd (month_range c)).
Proof.
  unfold keeps.
  rewrite !andb_true_iff, !between_iff,
    !(selected_iff String.eqb String.eqb_eq),
    (selected_iff Z.eqb Z.eqb_eq).
  assert (D : date_ge (Date r) (start_date c) = true
              /\ date_le (Date r) (end_date c) = true
              <-> exists d, Date r = Some d
                            /\ date_leb (start_date c) d = true
                            /\ date_leb d (end_date c) = true).
  { unfold date_ge, date_le. destruct (Date r) as [d|].
    - split.
      + intros [H1 H2]. now exists d.
      + intros [d' [E H]]. injection E as ->. exact H.
    - split; [intros [H _]; discriminate | intros [d [E _]]; discriminate]. }
  tauto.
Qed.

(** X1: a row is in the filtered table exactly when it is a row of the
    base table whose date lies in the date range, whose state, severity,
    weather and weekday each pass their selection (an empty selection
    passes everything, any other one only its members), and whose hour and
    month lie in their ranges. *)
Theorem filtered_row_iff (df : DataFrame) (c : Criteria) (ir : nat * Row) :
  In ir (get_filtered_data df c)
  <-> In ir df
      /\ (exists d, Date (snd ir) = Some d
                    /\ date_leb (start_date c) d = true
                    /\ date_leb d (end_date c) = true)
      /\ (state c = [] \/ In (State (snd ir)) (state c))
      /\ (severity c = [] \/ In (Severity (snd ir)) (severity c))
      /\ (weather c = [] \/ In (Weather_Condition (snd ir)) (weather c))
      /\ (day c = [] \/ In (Day (snd ir)) (day c))
      /\ (exists h, Hour (snd ir) = Some h
                    /\ fst (hour_range c) <= h <= snd (hour_range c))
      /\ (exists m, Month (snd ir) = Some m
                    /\ fst (month_range c) <= m <= snd (month_range c)).
Proof.
  rewrite get_filtered_data_keeps, boolean_index_In, keeps_iff. tauto.
Qed.

Lemma filtered_row_keeps (df : DataFrame) (c : Criteria) (ir : nat * Row) :
  In ir (get_filtered_data df c) <-> In ir df /\ keeps c (snd ir) = true.
Proof. now rewrite get_filtered_data_keeps, boolean_index_In. Qed.

Lemma boolean_index_weaker (p q : Row -> bool) (df : DataFrame) :
  (forall r, p r = true -> q r = true) ->
  Subframe (boolean_index p df) (boolean_index q df).
Proof.
  intros I. unfold boolean_index.
  induction df as [|ir df IH]; simpl; [constructor|].
  destruct (p (snd ir)) eqn:P.
  - rewrite (I _ P). now constructor.
  - destruct (q (snd ir)); [now constructor | exact IH].
Qed.

(** X2: filtering a filtered table with other criteria keeps the rows that
    pass both sets of criteria, whichever is applied first. *)
Theorem get_filtered_data_twice_commutes
    (df : DataFrame) (c1 c2 : Criteria) :
  get_filtered_data (get_filtered_data df c1) c2
  = get_filtered_data (get_filtered_data df c2) c1
  /\ forall ir,
       In ir (get_filtered_data (get_filtered_data df c1) c2)
       <-> In ir (get_filtered_data df c1) /\ In ir (get_filtered_data df c2).
Proof.
  rewrite !get_filtered_data_keeps, !boolean_index_twice. split.
  - apply boolean_index_ext. intros r. apply andb_comm.
  - intros ir. rewrite !boolean_index_In, andb_true_iff. tauto.
Qed.

(** X3: widening the hour range, the month range and the date range, the
    selections unchanged, never loses a row: the table filtered with the
    narrower ranges is the one filtered with the wider ranges with some
    rows left out. *)
Theorem wider_ranges_keep_every_row
    (df : DataFrame) (c : Criteria) (hours months : Z * Z)
    (dates : date * date) :
  fst hours <= fst (hour_range c) -> snd (hour_range c) <= snd hours ->
  fst months <= fst (month_range c) -> snd (month_range c) <= snd months ->
  date_leb (fst dates) (start_date c) = true ->
  date_leb (end_date c) (snd dates) = true ->
  Subframe (get_filtered_data df c)
           (get_filtered_data df (with_ranges hours months dates c)).
Proof.
  intros H1 H2 M1 M2 D1 D2. rewrite !get_filtered_data_keeps.
  apply boolean_index_weaker. intros r. unfold keeps, with_ranges. simpl.
  rewrite !andb_true_iff, !between_iff.
  intros [[[[[[Ds De] S] V] W] Y] [[h [Eh Hh]] [m [Em Hm]]]].
  repeat split; try assumption.
  - unfold date_ge in *. destruct (Date r) as [d|]; [|discriminate].
    now apply date_leb_trans with (b := start_date c).
  - unfold date_le in *. destruct (Date r) as [d|]; [|discriminate].
    now apply date_leb_trans with (b := end_date c).
  - exists h. split; [exact Eh | lia].
  - exists m. split; [exact Em | lia].
Qed.

Lemma wider_ranges_keep_every_row_witness :
  fst (0, 23) <= fst (hour_range Examples.morning)
  /\ snd (hour_range Examples.morning) <= snd (0, 23)
  /\ fst (1, 12) <= fst (month_range Examples.morning)
  /\ snd (month_range Examples.morning) <= snd (1, 12)
  /\ date_leb (fst (mkdate 2022 6 1, mkdate 2024 1 31))
       (start_date Examples.morning) = true
  /\ date_leb (end_date Examples.morning)
       (snd (mkdate 2022 6 1, mkdate 2024 1 31)) = true
  /\ Subframe (get_filtered_data Examples.df Examples.morning)
       (get_filtered_data Examples.df
          (with_ranges (0, 23) (1, 12) (mkdate 2022 6 1, mkdate 2024 1 31)
             Examples.morning)).
Proof.
  repeat (split; [simpl; first [lia | reflexivity]|]).
  apply (wider_ranges_keep_every_row Examples.df Examples.morning
           (0, 23) (1, 12) (mkdate 2022 6 1, mkdate 2024 1 31));
    simpl; first [lia | reflexivity].
Defined.

Lemma boolean_index_none (p : Row -> bool) (df : DataFrame) :
  (forall r, p r = false) -> boolean_index p df = [].
Proof.
  intros N. unfold boolean_index.
  induction df as [|ir df IH]; simpl; [reflexivity|]. now rewrite N.
Qed.

(** X4: a range given the wrong way round matches nothing: when the hour
    range or the month range has its upper end below its lower end, or the
    end date is before the start date, the filtered table is empty. *)
Theorem inverted_range_filters_everything_out
    (df : DataFrame) (c : Criteria) :
  snd (hour_range c) < fst (hour_range c)
  \/ snd (month_range c) < fst (month_range c)
  \/ date_leb (start_date c) (end_date c) = false ->
  get_filtered_data df c = [].
Proof.
  intros H. rewrite get_filtered_data_keeps. apply boolean_index_none.
  intros r. destruct (keeps c r) eqn:K; [exfalso | reflexivity].
  unfold keeps in K. rewrite !andb_true_iff, !between_iff in K.
  destruct K as [[[[[[Ds De] _] _] _] _] [[h [_ Hh]] [m [_ Hm]]]].
  destruct H as [H|[H|H]]; [lia | lia |].
  unfold date_ge, date_le in *. destruct (Date r) as [d|]; [|discriminate].
  rewrite (date_leb_trans _ _ _ Ds De) in H. discriminate.
Qed.

Lemma inverted_range_filters_everything_out_witness :
  (snd (hour_range (with_ranges (9, 6) (1, 12)
                      (mkdate 2023 1 1, mkdate 2023 12 31)
                      Examples.no_selection))
   < fst (hour_range (with_ranges (9, 6) (1, 12)
                        (mkdate 2023 1 1, mkdate 2023 12 31)
                        Examples.no_selection))
   \/ snd (month_range (with_ranges (9, 6) (1, 12)
                          (mkdate 2023 1 1, mkdate 2023 12 31)
                          Examples.no_selection))
      < fst (month_range (with_ranges (9, 6) (1, 12)
                            (mkdate 2023 1 1, mkdate 2023 12 31)
                            Examples.no_selection))
   \/ date_leb
        (start_date (with_ranges (9, 6) (1, 12)
                       (mkdate 2023 1 1, mkdate 2023 12 31)
                       Examples.no_selection))
        (end_date (with_ranges (9, 6) (1, 12)
                     (mkdate 2023 1 1, mkdate 2023 12 31)
                     Examples.no_selection)) = false)
  /\ get_filtered_data Examples.df
       (with_ranges (9, 6) (1, 12) (mkdate 2023 1 1, mkdate 2023 12 31)
          Examples.no_selection) = [].
Proof.
  assert (H : snd (hour_range (with_ranges (9, 6) (1, 12)
                                 (mkdate 2023 1 1, mkdate 2023 12 31)
                                 Examples.no_selection))
              < fst (hour_range (with_ranges (9, 6) (1, 12)
                                   (mkdate 2023 1 1, mkdate 2023 12 31)
                                   Examples.no_selection)))
    by (simpl; lia).
  split; [left; exact H|].
  apply (inverted_range_filters_everything_out Examples.df
           (with_ranges (9, 6) (1, 12) (mkdate 2023 1 1, mkdate 2023 12 31)
              Examples.no_selection)).
  left. exact H.
Defined.

(** ** Group-by indexes and counts *)

Section OrderedKeys.

Context {A : Type} (cmp : A -> A -> comparison) (eqb : A -> A -> bool).

Hypothesis cmp_eq : forall a b, cmp a b = Eq -> a = b.
Hypothesis cmp_gt : forall a b, cmp a b = Gt -> cmp b a = Lt.
Hypothesis cmp_trans :
  forall a b c, cmp a b = Lt -> cmp b c = Lt -> cmp a c = Lt.
Hypothesis cmp_irrefl : forall a, cmp a a <> Lt.
Hypothesis eqb_eq : forall a b, eqb a b = true <-> a = b.

Lemma insert_uniq_member (a x : A) (l : list A) :
  In x (insert_uniq cmp a l) <-> x = a \/ In x l.
Proof.
  induction l as [|y l IH]; simpl.
  - intuition.
  - destruct (cmp a y) eqn:E; simpl.
    + apply cmp_eq in E. subst y. intuition.
    + intuition.
    + rewrite IH. intuition.
Qed.

Lemma insert_uniq_sorted (a : A) (l : list A) :
  StronglySorted (below cmp) l -> StronglySorted (below cmp) (insert_uniq cmp a l).
Proof.
  induction 1 as [|y l S IH F]; simpl.
  - repeat constructor.
  - destruct (cmp a y) eqn:E.
    + now constructor.
    + constructor; [now constructor|]. constructor; [exact E|].
      eapply Forall_impl; [|exact F]. intros z Hz.
      now apply cmp_trans with (b := y).
    + constructor; [exact IH|].
      apply Forall_forall. intros z Hz. apply insert_uniq_member in Hz.
      destruct Hz as [->|Hz]; [now apply cmp_gt|].
      rewrite Forall_forall in F. now apply F.
Qed.

Lemma unique_sorted_sorted (col : Row -> option A) (df : DataFrame) :
  StronglySorted (below cmp) (unique_sorted cmp col df).
Proof.
  unfold unique_sorted.
  induction (values col df) as [|v vs IH]; simpl; [constructor|].
  now apply insert_uniq_sorted.
Qed.

Lemma unique_sorted_member (col : Row -> option A) (df : DataFrame) (k : A) :
  In k (unique_sorted cmp col df) <-> In k (values col df).
Proof.
  unfold unique_sorted.
  induction (values col df) as [|v vs IH]; simpl; [tauto|].
  rewrite insert_uniq_member, IH. intuition.
Qed.

Lemma sorted_NoDup (l : list A) : StronglySorted (below cmp) l -> NoDup l.
Proof.
  induction 1 as [|y l S IH F]; constructor; [|exact IH].
  intros Hin. rewrite Forall_forall in F.
  now apply (cmp_irrefl y), F.
Qed.

Lemma unique_sorted_NoDup (col : Row -> option A) (df : DataFrame) :
  NoDup (unique_sorted cmp col df).
Proof. apply sorted_NoDup, unique_sorted_sorted. Qed.

Lemma values_member (col : Row -> option A) (df : DataFrame) (k : A) :
  In k (values col df) <-> exists ir, In ir df /\ col (snd ir) = Some k.
Proof.
  unfold values. rewrite in_flat_map. split.
  - intros [ir [Hin Hk]]. exists ir. split; [exact Hin|].
    destruct (col (snd ir)); simpl in Hk; [|contradiction].
    destruct Hk as [->|[]]. reflexivity.
  - intros [ir [Hin E]]. exists ir. split; [exact Hin|].
    rewrite E. now left.
Qed.

Lemma values_length (col : Row -> option A) (df : DataFrame) :
  List.length (values col df)
  = len (boolean_index (fun r => notna (col r)) df).
Proof.
  unfold values, len, boolean_index.
  induction df as [|ir df IH]; simpl; [reflexivity|].
  destruct (col (snd ir)); simpl; now rewrite IH.
Qed.

Lemma one_key_matches (v : A) (keys : list A) :
  NoDup keys ->
  list_sum (map (fun k => if eqb v k then 1 else 0)%nat keys)
  = if existsb (eqb v) keys then 1%nat else 0%nat.
Proof.
  induction 1 as [|k keys Hk N IH]; simpl; [reflexivity|].
  destruct (eqb v k) eqn:E; simpl.
  - apply eqb_eq in E. subst k.
    destruct (existsb (eqb v) keys) eqn:X; [|now rewrite IH].
    apply existsb_exists in X. destruct X as [y [Hy Ey]].
    apply eqb_eq in Ey. now subst y.
  - exact IH.
Qed.

Lemma list_sum_pointwise {B} (f g : B -> nat) (l : list B) :
  list_sum (map (fun k => f k + g k)%nat l)
  = (list_sum (map f l) + list_sum (map g l))%nat.
Proof. induction l as [|k l IH]; simpl; lia. Qed.

(** The sizes of the groups of distinct keys add up to the number of rows
    whose cell is one of the keys. *)
Lemma group_sizes_total (keys : list A) (col : Row -> option A)
    (df : DataFrame) :
  NoDup keys ->
  list_sum (map (fun k => group_size eqb col k df) keys)
  = len (boolean_index (fun r => in_keys eqb keys (col r)) df).
Proof.
  intros N. unfold group_size, len, boolean_index.
  induction df as [|ir df IH]; simpl.
  - induction keys as [|k keys IHk]; simpl; [reflexivity|].
    inversion N; subst. now apply IHk.
  - rewrite (map_ext _
      (fun k => (if option_eqb eqb (col (snd ir)) (Some k) then 1 else 0)
                + List.length
                    (filter (fun ir0 => option_eqb eqb (col (snd ir0))
                                          (Some k)) df))%nat)
      by (intros k; now destruct (option_eqb eqb (col (snd ir)) (Some k))).
    rewrite list_sum_pointwise, IH.
    unfold in_keys at 1. destruct (col (snd ir)) as [v|]; simpl.
    + rewrite (one_key_matches v keys N).
      now destruct (existsb (eqb v) keys).
    + replace (list_sum (map (fun _ : A => 0%nat) keys)) with 0%nat;
        [reflexivity|].
      clear. induction keys; simpl; auto.
Qed.

Lemma groupby_size_total (col : Row -> option A) (df : DataFrame) :
  list_sum (map snd (groupby_size cmp eqb col df))
  = len (boolean_index (fun r => notna (col r)) df).
Proof.
  unfold groupby_size. rewrite map_map. simpl.
  rewrite (group_sizes_total _ col df (unique_sorted_NoDup col df)).
  f_equal. apply boolean_index_ext_in. intros ir Hin.
  unfold in_keys. destruct (col (snd ir)) as [v|] eqn:E; [|reflexivity].
  simpl. apply existsb_exists. exists v. split.
  - apply unique_sorted_member, values_member. now exists ir.
  - now apply eqb_eq.
Qed.

Lemma group_size_positive (col : Row -> option A) (df : DataFrame) (k : A) :
  In k (values col df) -> (1 <= group_size eqb col k df)%nat.
Proof.
  intros H. apply values_member in H. destruct H as [ir [Hin E]].
  unfold group_size, len.
  assert (I : In ir (boolean_index
                       (fun r => option_eqb eqb (col r) (Some k)) df)).
  { apply boolean_index_In. split; [exact Hin|]. rewrite E. simpl.
    now apply eqb_eq. }
  destruct (boolean_index (fun r => option_eqb eqb (col r) (Some k)) df);
    [contradiction | simpl; lia].
Qed.

End OrderedKeys.

Lemma string_compare_gt (a b : string) :
  String.compare a b = Gt -> String.compare b a = Lt.
Proof.
  intros H. rewrite String.compare_antisym, H. reflexivity.
Qed.

Lemma string_compare_trans (a b c : string) :
  String.compare a b = Lt -> String.compare b c = Lt ->
  String.compare a c = Lt.
Proof.
  intros H1 H2. apply OrderedTypeEx.String_as_OT.cmp_lt.
  apply OrderedTypeEx.String_as_OT.lt_trans with (y := b);
    now apply OrderedTypeEx.String_as_OT.cmp_lt.
Qed.

Lemma string_compare_irrefl (a : string) : String.compare a a <> Lt.
Proof.
  intros H. pose proof (String.compare_antisym a a) as S.
  rewrite H in S. discriminate.
Qed.

Lemma Z_compare_gt (a b : Z) : Z.compare a b = Gt -> Z.compare b a = Lt.
Proof. intros H. apply Z.compare_lt_iff. apply Z.compare_gt_iff in H. lia. Qed.

Lemma Z_compare_trans (a b c : Z) :
  Z.compare a b = Lt -> Z.compare b c = Lt -> Z.compare a c = Lt.
Proof. rewrite !Z.compare_lt_iff. lia. Qed.

Lemma Z_compare_irrefl (a : Z) : Z.compare a a <> Lt.
Proof. rewrite Z.compare_refl. discriminate. Qed.

Lemma Z_compare_eq' (a b : Z) : Z.compare a b = Eq -> a = b.
Proof. apply Z.compare_eq. Qed.

(** The counts by a numeric column: the values listed increase strictly,
    each is a value some row has, with at least one row, and the counts
    add up to the rows that have a value. *)
Lemma numeric_groupby_facts (col : Row -> option Z) (f : DataFrame) :
  StronglySorted Z.lt (map fst (groupby_size Z.compare Z.eqb col f))
  /\ Forall (fun kv => In (fst kv) (values col f) /\ (1 <= snd kv)%nat)
            (groupby_size Z.compare Z.eqb col f)
  /\ list_sum (map snd (groupby_size Z.compare Z.eqb col f))
     = len (boolean_index (fun r => notna (col r)) f).
Proof.
  split; [|split].
  - unfold groupby_size. rewrite map_map. simpl. rewrite map_id.
    pose proof (unique_sorted_sorted Z.compare Z_compare_eq' Z_compare_gt
                  Z_compare_trans col f) as S.
    induction S as [|y l S IH F]; constructor; [exact IH|].
    eapply Forall_impl; [|exact F]. intros z Hz.
    now apply Z.compare_lt_iff.
  - unfold groupby_size. apply Forall_forall. intros kv H.
    apply in_map_iff in H. destruct H as [k [<- Hk]]. simpl.
    apply (unique_sorted_member Z.compare Z_compare_eq') in Hk.
    split; [exact Hk|].
    now apply (group_size_positive Z.eqb Z.eqb_eq).
  - apply (groupby_size_total Z.compare Z.eqb Z_compare_eq' Z_compare_gt
             Z_compare_trans Z_compare_irrefl Z.eqb_eq).
Qed.

Lemma filtered_all_notna (df : DataFrame) (c : Criteria) :
  let f := get_filtered_data df c in
  boolean_index (fun r => notna (Hour r)) f = f
  /\ boolean_index (fun r => notna (Month r)) f = f
  /\ boolean_index (fun r => notna (Date r)) f = f.
Proof.
  intros f.
  assert (K : forall ir, In ir f ->
            notna (Date (snd ir)) = true /\ notna (Hour (snd ir)) = true
            /\ notna (Month (snd ir)) = true).
  { intros ir H. unfold f in H. rewrite get_filtered_data_keeps in H.
    apply boolean_index_In in H. now apply keeps_calendar with (c := c). }
  repeat split;
    (rewrite <- (boolean_index_all f) at 2;
     apply boolean_index_ext_in; intros ir H; now apply K).
Qed.

(** X5: the counts by hour and by month of a filtered table list hours
    (months) in strictly increasing order, each inside the hour (month)
    range of the criteria and with at least one accident, and the counts of
    either chart add up to the number of rows of the filtered table. *)
Theorem fig2_fig4_data_partition_the_filtered_rows
    (df : DataFrame) (c : Criteria) :
  let f := get_filtered_data df c in
  (StronglySorted Z.lt (map fst (fig2_data f))
   /\ Forall (fun kv => fst (hour_range c) <= fst kv <= snd (hour_range c)
                        /\ (1 <= snd kv)%nat)
             (fig2_data f)
   /\ list_sum (map snd (fig2_data f)) = len f)
  /\ (StronglySorted Z.lt (map fst (fig4_data f))
      /\ Forall (fun kv => fst (month_range c) <= fst kv
                             <= snd (month_range c)
                           /\ (1 <= snd kv)%nat)
                (fig4_data f)
      /\ list_sum (map snd (fig4_data f)) = len f).
Proof.
  intros f. destruct (filtered_all_notna df c) as [NH [NM _]]. fold f in NH, NM.
  unfold fig2_data, fig4_data.
  destruct (numeric_groupby_facts Hour f) as [S2 [F2 T2]].
  destruct (numeric_groupby_facts Month f) as [S4 [F4 T4]].
  rewrite NH in T2. rewrite NM in T4.
  split; (split; [assumption|split; [|assumption]]).
  - eapply Forall_impl; [|exact F2]. intros kv [Hin P]. split; [|exact P].
    apply (values_member (A := Z)) in Hin. destruct Hin as [ir [Hin E]].
    apply filtered_row_keeps in Hin. destruct Hin as [_ K].
    apply keeps_iff in K.
    destruct K as [_ [_ [_ [_ [_ [[h [Eh Hh]] _]]]]]]. congruence.
  - eapply Forall_impl; [|exact F4]. intros kv [Hin P]. split; [|exact P].
    apply (values_member (A := Z)) in Hin. destruct Hin as [ir [Hin E]].
    apply filtered_row_keeps in Hin. destruct Hin as [_ K].
    apply keeps_iff in K.
    destruct K as [_ [_ [_ [_ [_ [_ [m [Em Hm]]]]]]]]. congruence.
Qed.

(** ** The weekday chart of a loaded table *)

Lemma dt_day_name_in_week (t : Timestamp) : In (dt_day_name t) week.
Proof.
  unfold dt_day_name.
  destruct (nth_in_or_default (dayofweek t) week "Sunday") as [H| ->].
  - exact H.
  - simpl. tauto.
Qed.

Lemma week_NoDup : NoDup week.
Proof.
  unfold week.
  repeat (constructor; [simpl; intuition discriminate|]). constructor.
Qed.

Lemma group_size_absent (col : Row -> option string) (k : string)
    (f : DataFrame) :
  (forall ir, In ir f -> col (snd ir) <> Some k) ->
  group_size String.eqb col k f = 0%nat.
Proof.
  intros N. unfold group_size.
  rewrite (boolean_index_ext_in _ (fun _ => false)).
  - now rewrite boolean_index_none.
  - intros ir Hin. destruct (option_eqb String.eqb (col (snd ir)) (Some k))
      eqn:E; [|reflexivity].
    apply option_eqb_Some in E. now apply N in E.
Qed.

Lemma occurs_false (col : Row -> option string) (k : string)
    (df : DataFrame) :
  occurs col k df = false ->
  forall ir, In ir df -> col (snd ir) <> Some k.
Proof.
  unfold occurs. intros O ir Hin E.
  assert (X : existsb (fun ir => option_eqb String.eqb (col (snd ir))
                                   (Some k)) df = true).
  { apply existsb_exists. exists ir. split; [exact Hin|].
    now apply option_eqb_Some. }
  rewrite O in X. discriminate.
Qed.

Lemma occurs_within (col : Row -> option string) (k : string)
    (f df : DataFrame) :
  (forall ir, In ir f -> In ir df) ->
  occurs col k f = true -> occurs col k df = true.
Proof.
  unfold occurs. intros I O. apply existsb_exists in O.
  destruct O as [ir [Hin E]]. apply existsb_exists.
  exists ir. split; [now apply I | exact E].
Qed.

(** C4, as the code has it, under either default of [groupby]: the weekday
    counts list the seven weekdays from Monday to Sunday; a weekday in
    the index of the group-by (one that occurs in the base table under
    [observed=False], in the filtered table under [observed=True]) comes
    with the number of its rows in the filtered table, any other with a
    null; so a weekday with rows always shows their number, one without
    rows shows 0 or a null, and a weekday that occurs nowhere in the base
    table shows a null. *)
Theorem fig3_data_lists_the_week
    (observed : bool) (df : DataFrame) (c : Criteria) :
  let f := get_filtered_data df c in
  let out := fig3_data (groupby_categories observed Day df f) f in
  map fst out = week
  /\ out
     = map (fun d =>
              (d, if occurs Day d (if observed then f else df)
                  then Some (group_size String.eqb Day d f)
                  else None))
           week
  /\ Forall (fun kv => count_or_zero (snd kv)
                       = group_size String.eqb Day (fst kv) f)
            out
  /\ Forall (fun kv => occurs Day (fst kv) df = true \/ snd kv = None) out.
Proof.
  intros f out.
  assert (I : forall ir, In ir f -> In ir df).
  { intros ir H. unfold f in H. rewrite get_filtered_data_keeps in H.
    now apply boolean_index_In in H. }
  assert (E : out
              = map (fun d =>
                       (d, if occurs Day d (if observed then f else df)
                           then Some (group_size String.eqb Day d f)
                           else None))
                    week).
  { unfold out, fig3_data, reindex, groupby_categories.
    apply map_ext. intros d.
    now rewrite series_get_groupby, categories_occurs. }
  split; [|split; [exact E|split]].
  - unfold out, fig3_data, reindex. rewrite map_map. simpl. reflexivity.
  - rewrite E. apply Forall_forall. intros kv H.
    apply in_map_iff in H. destruct H as [d [<- _]]. cbn [fst snd].
    destruct (occurs Day d (if observed then f else df)) eqn:O;
      [reflexivity|].
    simpl. symmetry. apply group_size_absent. intros ir Hin.
    destruct observed.
    + now apply (occurs_false Day d f O).
    + apply (occurs_false Day d df O). now apply I.
  - rewrite E. apply Forall_forall. intros kv H.
    apply in_map_iff in H. destruct H as [d [<- _]]. cbn [fst snd].
    destruct (occurs Day d df) eqn:B; [now left | right].
    destruct observed; [|now rewrite B].
    destruct (occurs Day d f) eqn:O; [|reflexivity].
    apply (occurs_within Day d f df I) in O. congruence.
Qed.

(** C4, as stated, fails under either default of [groupby]: every
    timestamp of the table parses, no accident fell on a Wednesday, and
    Wednesday is listed with a null count, not with 0. *)
Lemma fig3_data_null_for_absent_weekday :
  ~ (exists observed : bool,
       forall (df : DataFrame) (c : Criteria) (d : string),
         In d week ->
         group_size String.eqb Day d (get_filtered_data df c) = 0%nat ->
         In (d, Some 0%nat)
            (fig3_data
               (groupby_categories observed Day df (get_filtered_data df c))
               (get_filtered_data df c))).
Proof.
  intros [observed H].
  specialize (H Examples.dated_df Examples.no_selection "Wednesday").
  destruct observed; vm_compute in H;
    (destruct H as [H|[H|[H|[H|[H|[H|[H|[]]]]]]]];
     try discriminate; auto).
Qed.

(** The Californian accidents of that table: Saturday, a day of the base
    table without a Californian accident, shows 0 under one default and a
    null under the other. *)
Example fig3_data_worked :
  fig3_data
    (groupby_categories false Day Examples.dated_df
       (get_filtered_data Examples.dated_df Examples.california))
    (get_filtered_data Examples.dated_df Examples.california)
  = [("Monday", Some 1); ("Tuesday", Some 1); ("Wednesday", None);
     ("Thursday", None); ("Friday", None); ("Saturday", Some 0);
     ("Sunday", Some 1)]%nat
  /\ fig3_data
       (groupby_categories true Day Examples.dated_df
          (get_filtered_data Examples.dated_df Examples.california))
       (get_filtered_data Examples.dated_df Examples.california)
     = [("Monday", Some 1); ("Tuesday", Some 1); ("Wednesday", None);
        ("Thursday", None); ("Friday", None); ("Saturday", None);
        ("Sunday", Some 1)]%nat.
Proof. split; reflexivity. Qed.

(** X6: for a table that comes from the loader, each bar of the weekday
    chart (a null read as 0) is the number of filtered rows of that
    weekday, and the seven bars add up to the number of rows of the
    filtered table: no filtered accident is missing from the chart. *)
Theorem fig3_data_counts_every_filtered_row
    (to_datetime : string -> option Timestamp) (csv : list CsvRow)
    (c : Criteria) :
  let df := load_data to_datetime csv in
  let f := get_filtered_data df c in
  Forall (fun kv => count_or_zero (snd kv)
                    = group_size String.eqb Day (fst kv) f)
         (fig3_data (categories Day df) f)
  /\ list_sum (map (fun kv => count_or_zero (snd kv))
                 (fig3_data (categories Day df) f))
     = len f.
Proof.
  intros df f.
  assert (E : forall d,
            count_or_zero (series_get d
              (groupby_size_categorical (categories Day df) Day f))
            = group_size String.eqb Day d f).
  { intros d. rewrite series_get_groupby, categories_occurs.
    destruct (occurs Day d df) eqn:O; simpl; [reflexivity|].
    symmetry. apply group_size_absent. intros ir Hin.
    apply (occurs_false Day d df O).
    unfold f in Hin. rewrite get_filtered_data_keeps in Hin.
    now apply boolean_index_In in Hin. }
  split.
  - unfold fig3_data, reindex. apply Forall_forall. intros kv H.
    apply in_map_iff in H. destruct H as [d [<- _]]. simpl. apply E.
  - unfold fig3_data, reindex. rewrite map_map.
    rewrite (map_ext _ (fun d => group_size String.eqb Day d f))
      by (intros d; cbn [snd]; apply E).
    rewrite (group_sizes_total String.eqb String.eqb_eq week Day f
               week_NoDup).
    f_equal. rewrite <- (boolean_index_all f) at 2.
    apply boolean_index_ext_in. intros [i x] Hin.
    unfold f in Hin. rewrite get_filtered_data_keeps in Hin.
    apply boolean_index_In in Hin. destruct Hin as [Hin K].
    apply load_data_In in Hin. destruct Hin as [r [_ ->]].
    apply keeps_calendar in K. destruct K as [D _]. simpl in *.
    destruct (parse_cell to_datetime (csv_Start_Time r)) as [t|];
      [|discriminate].
    change (existsb (String.eqb (dt_day_name t)) week = true).
    apply existsb_exists. exists (dt_day_name t).
    split; [apply dt_day_name_in_week | apply String.eqb_refl].
Qed.

(** ** The state and weather charts *)

Lemma head_of_descending
    (sort_values : list (string * nat) -> list (string * nat))
    (groups : list (string * nat)) (n : nat) :
  sorts_descending sort_values ->
  List.length (head n (sort_values groups))
  = Nat.min n (List.length groups)
  /\ StronglySorted count_ge (head n (sort_values groups))
  /\ Permutation (head n (sort_values groups) ++ skipn n (sort_values groups))
       groups
  /\ Forall (fun g => Forall (fun o => count_ge o g)
                        (head n (sort_values groups)))
            (skipn n (sort_values groups)).
Proof.
  intros H. destruct (H groups) as [P S]. unfold head.
  assert (E : firstn n (sort_values groups) ++ skipn n (sort_values groups)
              = sort_values groups) by apply firstn_skipn.
  rewrite <- E in S. apply StronglySorted_app_inv in S. destruct S as [S F].
  split; [now rewrite length_firstn, (Permutation_length P)|].
  split; [exact S|]. split; [now rewrite E | exact F].
Qed.

Lemma string_categories_NoDup (col : Row -> option string) (df : DataFrame) :
  NoDup (categories col df).
Proof.
  apply (unique_sorted_NoDup String.compare String.compare_eq_iff
           string_compare_gt string_compare_trans string_compare_irrefl).
Qed.

Lemma chart_entries
    (sort_values : list (string * nat) -> list (string * nat))
    (col : Row -> option string) (df f : DataFrame) (n : nat) :
  sorts_descending sort_values ->
  let out :=
    head n (sort_values (groupby_size_categorical (categories col df) col f))
  in
  NoDup (map fst out)
  /\ Forall (fun kv => occurs col (fst kv) df = true
                       /\ snd kv = group_size String.eqb col (fst kv) f)
            out
  /\ (list_sum (map snd out) <= len f)%nat.
Proof.
  intros H out.
  set (groups := groupby_size_categorical (categories col df) col f) in *.
  destruct (head_of_descending sort_values groups n H) as [_ [_ [P _]]].
  fold out in P.
  assert (G : map fst groups = categories col df).
  { unfold groups, groupby_size_categorical. rewrite map_map. simpl.
    apply map_id. }
  split; [|split].
  - apply (Permutation_map fst) in P. rewrite map_app in P.
    assert (N : NoDup (map fst out ++ map fst (skipn n (sort_values groups)))).
    { eapply Permutation_NoDup; [symmetry; exact P|].
      rewrite G. apply string_categories_NoDup. }
    now apply NoDup_app_remove_r in N.
  - apply Forall_forall. intros kv Hin.
    assert (I : In kv groups).
    { eapply Permutation_in; [exact P|]. apply in_or_app. now left. }
    unfold groups, groupby_size_categorical in I. apply in_map_iff in I.
    destruct I as [k [<- Hk]]. simpl. split; [|reflexivity].
    rewrite <- categories_occurs. apply existsb_exists.
    exists k. split; [exact Hk | apply String.eqb_refl].
  - apply (Permutation_map snd) in P. rewrite map_app in P.
    assert (T : (list_sum (map snd out)
                 + list_sum (map snd (skipn n (sort_values groups))))%nat
                = list_sum (map snd groups)).
    { rewrite <- list_sum_app. now apply Permutation_list_sum. }
    assert (L : (list_sum (map snd groups) <= len f)%nat).
    { unfold groups, groupby_size_categorical. rewrite map_map. simpl.
      rewrite (group_sizes_total String.eqb String.eqb_eq _ col f
                 (string_categories_NoDup col df)).
      apply Subframe_length, boolean_index_Subframe. }
    lia.
Qed.

(** X7: whatever descending sort [value_counts] uses, the weather chart
    has at most 15 bars in descending order of count, no weather left out
    has more accidents than one shown, no weather is shown twice, and each
    bar is a weather of the base table with the number of filtered rows
    that have it. *)
Theorem fig6_data_top_15_weathers
    (sort_values : list (string * nat) -> list (string * nat))
    (df : DataFrame) (c : Criteria) :
  sorts_descending sort_values ->
  let f := get_filtered_data df c in
  let groups :=
    groupby_size_categorical (categories Weather_Condition df)
      Weather_Condition f in
  let out := fig6_data sort_values (categories Weather_Condition df) f in
  (List.length out <= 15)%nat
  /\ StronglySorted count_ge out
  /\ (exists rest,
        Permutation (out ++ rest) groups
        /\ Forall (fun g => Forall (fun o => count_ge o g) out) rest)
  /\ NoDup (map fst out)
  /\ Forall (fun kv =>
               occurs Weather_Condition (fst kv) df = true
               /\ snd kv
                  = group_size String.eqb Weather_Condition (fst kv) f)
            out.
Proof.
  intros H f groups out.
  destruct (head_of_descending sort_values groups 15 H) as [L [S [P F]]].
  destruct (chart_entries sort_values Weather_Condition df f 15 H)
    as [N [T _]].
  unfold fig6_data in out. fold groups in out. fold out in L, S, P, F.
  split; [rewrite L; apply Nat.le_min_l|]. split; [exact S|].
  split; [now exists (skipn 15 (sort_values groups))|].
  split; [exact N | exact T].
Qed.

Lemma fig6_data_top_15_weathers_witness :
  sorts_descending (sort_desc true)
  /\ fig6_data (sort_desc true) (categories Weather_Condition Examples.df)
       (get_filtered_data Examples.df Examples.california)
     = [("Clear", 1); ("Fog", 1); ("Rain", 1); ("Snow", 0)]%nat
  /\ StronglySorted count_ge
       (fig6_data (sort_desc true)
          (categories Weather_Condition Examples.df)
          (get_filtered_data Examples.df Examples.california)).
Proof.
  split; [apply sort_desc_sorts|]. split; [reflexivity|].
  apply (fig6_data_top_15_weathers (sort_desc true) Examples.df
           Examples.california (sort_desc_sorts true)).
Defined.

(** X8: whatever descending sort is used, no state appears twice in the
    state chart, each bar is a state of the base table with the number of
    filtered rows in that state, and the bars add up to no more than the
    number of rows of the filtered table. *)
Theorem state_counts_bars_are_true_counts
    (sort_values : list (string * nat) -> list (string * nat))
    (df : DataFrame) (c : Criteria) :
  sorts_descending sort_values ->
  let f := get_filtered_data df c in
  let out := state_counts sort_values (categories State df) f in
  NoDup (map fst out)
  /\ Forall (fun kv => occurs State (fst kv) df = true
                       /\ snd kv = group_size String.eqb State (fst kv) f)
            out
  /\ (list_sum (map snd out) <= len f)%nat.
Proof.
  intros H f out.
  apply (chart_entries sort_values State df f 15 H).
Qed.

Lemma state_counts_bars_are_true_counts_witness :
  sorts_descending (sort_desc false)
  /\ (list_sum
        (map snd
           (state_counts (sort_desc false) (categories State Examples.df)
              (get_filtered_data Examples.df Examples.california)))
      <= len (get_filtered_data Examples.df Examples.california))%nat.
Proof.
  split; [apply sort_desc_sorts|].
  apply (state_counts_bars_are_true_counts (sort_desc false) Examples.df
           Examples.california (sort_desc_sorts false)).
Defined.

(** ** Key metrics and sidebar options *)

Lemma string_unique_sorted_In (col : Row -> option string) (df : DataFrame)
    (k : string) :
  In k (unique_sorted String.compare col df)
  <-> exists ir, In ir df /\ col (snd ir) = Some k.
Proof.
  rewrite (unique_sorted_member String.compare String.compare_eq_iff).
  apply values_member.
Qed.

Lemma nunique_le_len (col : Row -> option string) (f : DataFrame) :
  (nunique String.compare col f <= len f)%nat.
Proof.
  unfold nunique.
  apply Nat.le_trans with (m := List.length (values col f)).
  - apply NoDup_incl_length; [apply string_categories_NoDup|].
    intros k Hk.
    now apply (unique_sorted_member String.compare String.compare_eq_iff)
      in Hk.
  - rewrite values_length. apply Subframe_length, boolean_index_Subframe.
Qed.

Lemma nunique_Subframe (col : Row -> option string) (f df : DataFrame) :
  Subframe f df ->
  (nunique String.compare col f <= nunique String.compare col df)%nat.
Proof.
  intros S. unfold nunique.
  apply NoDup_incl_length; [apply string_categories_NoDup|].
  intros k Hk. apply string_unique_sorted_In in Hk.
  destruct Hk as [ir [Hin E]]. apply string_unique_sorted_In.
  exists ir. split; [now apply (Subframe_In _ _ S) | exact E].
Qed.

Lemma NoDup_map_Some {A} (l : list A) : NoDup l -> NoDup (map Some l).
Proof.
  induction 1 as [|x l Hx N IH]; simpl; constructor; [|exact IH].
  intros H. apply in_map_iff in H. destruct H as [y [E Hy]].
  injection E as ->. contradiction.
Qed.

(** X9: none of the three coverage metrics exceeds the number of
    accidents shown, none exceeds its value on the base table, and with a
    non-empty state selection the number of states covered is at most the
    number of states selected. *)
Theorem coverage_metrics_are_bounded (df : DataFrame) (c : Criteria) :
  let f := get_filtered_data df c in
  (total_accidents f <= total_accidents df)%nat
  /\ (states_covered f <= total_accidents f)%nat
  /\ (cities_covered f <= total_accidents f)%nat
  /\ (weather_types f <= total_accidents f)%nat
  /\ (states_covered f <= states_covered df)%nat
  /\ (cities_covered f <= cities_covered df)%nat
  /\ (weather_types f <= weather_types df)%nat
  /\ (state c <> [] -> (states_covered f <= List.length (state c))%nat).
Proof.
  intros f.
  assert (S : Subframe f df).
  { unfold f. rewrite get_filtered_data_keeps. apply boolean_index_Subframe. }
  unfold total_accidents, states_covered, cities_covered, weather_types.
  repeat split; try apply nunique_le_len; try now apply nunique_Subframe.
  - now apply Subframe_length.
  - intros N. unfold nunique.
    rewrite <- (length_map Some (unique_sorted String.compare State f)).
    apply NoDup_incl_length.
    + apply NoDup_map_Some, string_categories_NoDup.
    + intros o Ho. apply in_map_iff in Ho. destruct Ho as [k [<- Hk]].
      apply string_unique_sorted_In in Hk. destruct Hk as [ir [Hin E]].
      apply filtered_row_keeps in Hin. destruct Hin as [_ K].
      apply keeps_iff in K. destruct K as [_ [[K|K] _]]; [contradiction|].
      now rewrite <- E.
Qed.

Lemma coverage_metrics_are_bounded_witness :
  state Examples.california <> []
  /\ (states_covered (get_filtered_data Examples.df Examples.california)
      <= List.length (state Examples.california))%nat.
Proof.
  assert (N : state Examples.california <> []) by discriminate.
  split; [exact N|].
  now apply (coverage_metrics_are_bounded Examples.df Examples.california).
Defined.

(** X10: the state list offers exactly the states that occur in the
    table, each once, in strictly increasing alphabetical order; the
    states chosen at the start are at most ten of them. *)
Theorem all_states_are_the_states_of_the_table (df : DataFrame) :
  (forall s, In s (all_states df)
             <-> exists ir, In ir df /\ State (snd ir) = Some s)
  /\ StronglySorted (below String.compare) (all_states df)
  /\ NoDup (all_states df)
  /\ (List.length (default_state df) <= 10)%nat
  /\ Forall (fun o => exists s, o = Some s /\ In s (all_states df))
            (default_state df).
Proof.
  unfold all_states, default_state. split; [|split; [|split; [|split]]].
  - intros s. apply string_unique_sorted_In.
  - apply (unique_sorted_sorted String.compare String.compare_eq_iff
             string_compare_gt string_compare_trans).
  - apply string_categories_NoDup.
  - rewrite length_map, length_firstn. apply Nat.le_min_l.
  - apply Forall_forall. intros o Ho. apply in_map_iff in Ho.
    destruct Ho as [s [<- Hs]]. exists s. split; [reflexivity|].
    rewrite <- (firstn_skipn 10 (unique_sorted String.compare State df)).
    apply in_or_app. now left.
Qed.

Lemma keeps_with_state (vs : list (option string)) (c : Criteria) (r : Row) :
  keeps (with_state vs c) r
  = selected String.eqb vs (State r) && keeps (with_state [] c) r.
Proof.
  unfold keeps, with_state. simpl.
  destruct (selected String.eqb vs (State r)); simpl;
    [reflexivity | now rewrite !andb_false_r].
Qed.

(** X11: choosing every state of the list is not the same as choosing
    none: it gives the table filtered with no state chosen, without its
    rows that have no state. *)
Theorem every_state_chosen_drops_the_stateless_rows
    (df : DataFrame) (c : Criteria) :
  all_states df <> [] ->
  get_filtered_data df (with_state (map Some (all_states df)) c)
  = boolean_index (fun r => notna (State r))
      (get_filtered_data df (with_state [] c)).
Proof.
  intros N. rewrite !get_filtered_data_keeps, boolean_index_twice.
  apply boolean_index_ext_in. intros ir Hin.
  rewrite keeps_with_state, andb_comm. f_equal.
  assert (Sel : selected String.eqb (map Some (all_states df))
                  (State (snd ir))
                = isin String.eqb (map Some (all_states df))
                    (State (snd ir)))
    by (destruct (all_states df); [contradiction | reflexivity]).
  rewrite Sel.
  destruct (State (snd ir)) as [s|] eqn:E; simpl.
  - apply (isin_In String.eqb String.eqb_eq). apply in_map.
    apply string_unique_sorted_In. now exists ir.
  - apply isin_names_null.
Qed.

Lemma every_state_chosen_drops_the_stateless_rows_witness :
  all_states Examples.df <> []
  /\ get_filtered_data Examples.df
       (with_state (map Some (all_states Examples.df))
          Examples.no_selection)
     = boolean_index (fun r => notna (State r))
         (get_filtered_data Examples.df
            (with_state [] Examples.no_selection)).
Proof.
  assert (N : all_states Examples.df <> []) by (vm_compute; discriminate).
  split; [exact N|].
  now apply (every_state_chosen_drops_the_stateless_rows Examples.df
               Examples.no_selection).
Defined.

(** X12: when the date picker hands back anything but a pair of dates,
    the range falls back on the table's first and last date, and then the
    date step removes the rows without a date and no other. *)
Theorem incomplete_date_range_keeps_every_dated_row
    (df : DataFrame) (c : Criteria) (date_range : DateInput)
    (min_date max_date : date) :
  (forall a b, date_range <> DateTuple [a; b]) ->
  Forall (fun ir => forall d, Date (snd ir) = Some d ->
                      date_leb min_date d = true
                      /\ date_leb d max_date = true)
         df ->
  date_bounds date_range min_date max_date = (min_date, max_date)
  /\ date_step
       (with_ranges (hour_range c) (month_range c)
          (date_bounds date_range min_date max_date) c)
       df
     = boolean_index (fun r => notna (Date r)) df.
Proof.
  intros P B.
  assert (E : date_bounds date_range min_date max_date
              = (min_date, max_date)).
  { destruct date_range as [d|[|a [|b [|x ds]]]]; try reflexivity.
    now destruct (P a b). }
  split; [exact E|]. rewrite E. unfold date_step, with_ranges. simpl.
  apply boolean_index_ext_in. intros ir Hin.
  rewrite Forall_forall in B. specialize (B ir Hin).
  unfold date_ge, date_le. destruct (Date (snd ir)) as [d|]; [|reflexivity].
  destruct (B d eq_refl) as [B1 B2]. now rewrite B1, B2.
Qed.

Lemma incomplete_date_range_keeps_every_dated_row_witness :
  (forall a b, DateTuple [mkdate 2023 2 1] <> DateTuple [a; b])
  /\ Forall (fun ir => forall d, Date (snd ir) = Some d ->
                         date_leb (mkdate 2023 1 2) d = true
                         /\ date_leb d (mkdate 2023 3 5) = true)
            Examples.df
  /\ date_step
       (with_ranges (hour_range Examples.morning)
          (month_range Examples.morning)
          (date_bounds (DateTuple [mkdate 2023 2 1])
             (mkdate 2023 1 2) (mkdate 2023 3 5))
          Examples.morning)
       Examples.df
     = boolean_index (fun r => notna (Date r)) Examples.df.
Proof.
  assert (P : forall a b, DateTuple [mkdate 2023 2 1] <> DateTuple [a; b])
    by (intros a b; discriminate).
  assert (B : Forall (fun ir => forall d, Date (snd ir) = Some d ->
                        date_leb (mkdate 2023 1 2) d = true
                        /\ date_leb d (mkdate 2023 3 5) = true)
                Examples.df).
  { unfold Examples.df, load_data. simpl.
    repeat (constructor;
            [simpl; intros d E;
             first [discriminate | injection E as <-; split; reflexivity]|]).
    constructor. }
  split; [exact P|]. split; [exact B|].
  apply (incomplete_date_range_keeps_every_dated_row Examples.df
           Examples.morning (DateTuple [mkdate 2023 2 1])
           (mkdate 2023 1 2) (mkdate 2023 3 5) P B).
Defined.

(** ** The map tab *)

Lemma map_df_outcome
    (RandomState : Type) (RandomState_of_seed : Z -> RandomState)
    (choice : RandomState -> nat -> nat -> list nat * RandomState)
    (filtered_df : DataFrame) (map_points : nat) (g : RandomState) :
  draws_positions choice ->
  exists out,
    map_df RandomState_of_seed choice filtered_df map_points g = (Ok out, g)
    /\ len out
       = Nat.min map_points (len (dropna has_coordinates filtered_df))
    /\ Forall (fun ir => In ir (dropna has_coordinates filtered_df)) out.
Proof.
  intros C. unfold map_df.
  set (points := dropna has_coordinates filtered_df).
  destruct (map_points <? len points)%nat eqn:L.
  - apply Nat.ltb_lt in L. unfold sample.
    assert (N : (len points <? map_points)%nat = false)
      by (apply Nat.ltb_ge; lia).
    rewrite N.
    destruct (C (RandomState_of_seed 42) (len points) map_points)
      as [Cl Cb]; [lia|].
    destruct (choice (RandomState_of_seed 42) (len points) map_points)
      as [positions rs'].
    simpl in Cl, Cb.
    destruct (take_inside positions points Cb) as [out [E [Lo F]]].
    exists out. rewrite E. split; [reflexivity|]. split; [lia | exact F].
  - apply Nat.ltb_ge in L. exists points. split; [reflexivity|].
    split; [lia|]. apply Forall_forall. auto.
Qed.

Lemma mean_Q_notna (vs : list Q) : vs <> [] -> notna (mean_Q vs) = true.
Proof. destruct vs; [contradiction | reflexivity]. Qed.

(** X13: given that [choice] returns as many positions as it is asked
    for, all inside the population, and a cap of at least one point: the
    map tab never raises; it shows its warning when no filtered row has
    both coordinates, and otherwise a map of as many points as there are
    such rows, but no more than the cap, every point with both
    coordinates, centred on a place that is defined. *)
Theorem map_tab_warns_or_plots_located_points
    (RandomState : Type) (RandomState_of_seed : Z -> RandomState)
    (choice : RandomState -> nat -> nat -> list nat * RandomState)
    (filtered_df : DataFrame) (map_points : nat) (map_view : MapView)
    (g : RandomState) :
  draws_positions choice ->
  (1 <= map_points)%nat ->
  let located := dropna has_coordinates filtered_df in
  (len located = 0%nat ->
     map_tab RandomState_of_seed choice filtered_df map_points map_view g
     = (Ok (NoMapData "No map data available for selected filters."), g))
  /\ ((1 <= len located)%nat ->
      exists location points,
        map_tab RandomState_of_seed choice filtered_df map_points map_view g
        = (Ok (MapShown map_view location points), g)
        /\ List.length points = Nat.min map_points (len located)
        /\ Forall (fun p => notna (fst p) = true /\ notna (snd p) = true)
                  points
        /\ notna (fst location) = true
        /\ notna (snd location) = true).
Proof.
  intros C P located.
  destruct (map_df_outcome RandomState RandomState_of_seed choice
              filtered_df map_points g C) as [out [E [L F]]].
  fold located in L, F. unfold map_tab. rewrite E.
  assert (Co : Forall (fun ir => has_coordinates (snd ir) = true) out).
  { eapply Forall_impl; [|exact F]. intros ir Hin.
    unfold located, dropna in Hin. now apply boolean_index_In in Hin. }
  split; intros Z.
  - rewrite Z, Nat.min_0_r in L. now rewrite L.
  - assert (N : (1 <= len out)%nat) by lia.
    destruct (len out =? 0)%nat eqn:Q; [apply Nat.eqb_eq in Q; lia|].
    eexists. eexists. split; [reflexivity|].
    split; [unfold coordinates; rewrite length_map; exact L|].
    split.
    + unfold coordinates. apply Forall_forall. intros p Hp.
      apply in_map_iff in Hp. destruct Hp as [ir [<- Hin]].
      rewrite Forall_forall in Co. specialize (Co ir Hin).
      unfold has_coordinates in Co. now apply andb_true_iff in Co.
    + destruct out as [|ir out]; [simpl in N; lia|].
      inversion Co as [|x l Hc _]; subst.
      unfold has_coordinates in Hc. apply andb_true_iff in Hc.
      destruct Hc as [Ha Hb]. simpl.
      split; apply mean_Q_notna; unfold values; simpl.
      * destruct (Start_Lat (snd ir)); [discriminate | discriminate].
      * destruct (Start_Lng (snd ir)); [discriminate | discriminate].
Qed.

Lemma map_tab_warns_or_plots_located_points_witness :
  draws_positions Examples.choice
  /\ (1 <= 2)%nat
  /\ (1 <= len (dropna has_coordinates
                  (get_filtered_data Examples.df Examples.no_selection)))%nat
  /\ exists location points,
       map_tab Examples.RandomState_of_seed Examples.choice
         (get_filtered_data Examples.df Examples.no_selection) 2
         HotspotsHeatmap 7%nat
       = (Ok (MapShown HotspotsHeatmap location points), 7%nat)
       /\ List.length points
          = Nat.min 2
              (len (dropna has_coordinates
                      (get_filtered_data Examples.df Examples.no_selection)))
       /\ Forall (fun p => notna (fst p) = true /\ notna (snd p) = true)
                 points
       /\ notna (fst location) = true
       /\ notna (snd location) = true.
Proof.
  split; [exact example_choice_draws_positions|].
  split; [lia|]. split; [vm_compute; lia|].
  apply (map_tab_warns_or_plots_located_points nat
           Examples.RandomState_of_seed Examples.choice
           (get_filtered_data Examples.df Examples.no_selection)
           2%nat HotspotsHeatmap 7%nat example_choice_draws_positions).
  - lia.
  - vm_compute; lia.
Defined.

(** ** The average severity again *)

Lemma sum_between (lo hi : Z) (vs : list Z) :
  Forall (fun s => lo <= s <= hi) vs ->
  Z.of_nat (List.length vs) * lo <= fold_right Z.add 0 vs
  <= Z.of_nat (List.length vs) * hi.
Proof.
  induction 1 as [|s vs Hs _ IH]; [simpl; lia|].
  change (fold_right Z.add 0 (s :: vs)) with (s + fold_right Z.add 0 vs).
  change (List.length (s :: vs)) with (S (List.length vs)).
  lia.
Qed.

Lemma inject_Z_le_half (z w : Z) :
  (inject_Z z <= inject_Z w + (1 # 2))%Q -> z <= w.
Proof. unfold Qle, Qplus, inject_Z. simpl. lia. Qed.

Lemma rounded_between (round_2 : Q -> Q) (lo hi : Z) (q : Q) :
  rounds_to_hundredths round_2 ->
  (inject_Z lo <= q <= inject_Z hi)%Q ->
  (inject_Z lo <= round_2 q <= inject_Z hi)%Q.
Proof.
  intros R [L H]. destruct (R q) as [k [E [K1 K2]]]. rewrite E.
  assert (A : 100 * lo <= k).
  { apply inject_Z_le_half. rewrite inject_Z_mult.
    change (inject_Z 100) with 100%Q. lra. }
  assert (B : k <= 100 * hi).
  { apply inject_Z_le_half. rewrite inject_Z_mult.
    change (inject_Z 100) with 100%Q. lra. }
  unfold Qle, inject_Z. simpl. lia.
Qed.

(** X14: when the filtered table has at least one severity and every
    severity in it lies between [lo] and [hi], the average severity shown
    is a number between [lo] and [hi]: rounding to two decimals,
    whichever way it takes its ties, never takes it out of the range. *)
Theorem average_severity_within_the_severities
    (round_2 : Q -> Q) (filtered_df : DataFrame) (lo hi : Z) :
  rounds_to_hundredths round_2 ->
  values Severity filtered_df <> [] ->
  Forall (fun s => lo <= s <= hi) (values Severity filtered_df) ->
  exists v, average_severity round_2 filtered_df = Some v
            /\ (inject_Z lo <= v <= inject_Z hi)%Q.
Proof.
  intros R N F. unfold average_severity.
  assert (P : (0 <? len filtered_df)%nat = true).
  { apply Nat.ltb_lt. destruct filtered_df; [now elim N | simpl; lia]. }
  rewrite P. unfold mean.
  destruct (values Severity filtered_df) as [|s vs] eqn:E; [now elim N|].
  cbn [option_map]. eexists. split; [reflexivity|].
  apply (rounded_between round_2 lo hi _ R).
  pose proof (sum_between lo hi (s :: vs) F) as S.
  set (total := fold_right Z.add 0 (s :: vs)) in *.
  set (n := List.length (s :: vs)) in *.
  assert (Pn : (1 <= n)%nat) by (unfold n; simpl; lia).
  assert (En : Z.pos (Pos.of_nat n) = Z.of_nat n).
  { rewrite <- (Nat2Pos.id n) at 2 by lia. now rewrite positive_nat_Z. }
  unfold Qle, inject_Z. cbn [Qnum Qden]. rewrite En. lia.
Qed.

Lemma average_severity_within_the_severities_witness :
  rounds_to_hundredths round2
  /\ values Severity
       (get_filtered_data Examples.dated_df Examples.california) <> []
  /\ Forall (fun s => 1 <= s <= 2)
       (values Severity
          (get_filtered_data Examples.dated_df Examples.california))
  /\ exists v,
       average_severity round2
         (get_filtered_data Examples.dated_df Examples.california)
       = Some v
       /\ (inject_Z 1 <= v <= inject_Z 2)%Q.
Proof.
  assert (N : values Severity
                (get_filtered_data Examples.dated_df Examples.california)
              <> [])
    by (vm_compute; discriminate).
  assert (F : Forall (fun s => 1 <= s <= 2)
                (values Severity
                   (get_filtered_data Examples.dated_df
                      Examples.california)))
    by (vm_compute; repeat constructor; discriminate).
  split; [exact round2_rounds_to_hundredths|].
  split; [exact N|]. split; [exact F|].
  apply (average_severity_within_the_severities round2
           (get_filtered_data Examples.dated_df Examples.california) 1 2
           round2_rounds_to_hundredths N F).
Defined.

(** ** The loaded table and the sliders at their widest *)

(** X16: with nothing chosen in the four lists and the ranges at least
    as wide as the table (hours, months and dates of the table inside
    them), the filter removes the rows that lack a date, an hour or a
    month and no other. *)
Theorem widest_criteria_keep_every_timed_row
    (df : DataFrame) (c : Criteria) :
  state c = [] -> severity c = [] -> weather c = [] -> day c = [] ->
  Forall (fun ir =>
            (forall d, Date (snd ir) = Some d ->
               date_leb (start_date c) d = true
               /\ date_leb d (end_date c) = true)
            /\ (forall h, Hour (snd ir) = Some h ->
                  fst (hour_range c) <= h <= snd (hour_range c))
            /\ (forall m, Month (snd ir) = Some m ->
                  fst (month_range c) <= m <= snd (month_range c)))
         df ->
  get_filtered_data df c
  = boolean_index
      (fun r => notna (Date r) && notna (Hour r) && notna (Month r)) df.
Proof.
  intros S V W Y B. rewrite get_filtered_data_keeps.
  apply boolean_index_ext_in. intros ir Hin.
  rewrite Forall_forall in B. destruct (B ir Hin) as [Bd [Bh Bm]].
  unfold keeps. rewrite S, V, W, Y. simpl.
  unfold date_ge, date_le, between.
  destruct (Date (snd ir)) as [d|]; [|reflexivity].
  destruct (Bd d eq_refl) as [D1 D2]. rewrite D1, D2. simpl.
  destruct (Hour (snd ir)) as [h|]; [|reflexivity].
  destruct (Month (snd ir)) as [m|];
    [|simpl; now rewrite andb_false_r].
  specialize (Bh h eq_refl). specialize (Bm m eq_refl).
  assert (H1 : (fst (hour_range c) <=? h) = true) by (apply Z.leb_le; lia).
  assert (H2 : (h <=? snd (hour_range c)) = true) by (apply Z.leb_le; lia).
  assert (M1 : (fst (month_range c) <=? m) = true) by (apply Z.leb_le; lia).
  assert (M2 : (m <=? snd (month_range c)) = true) by (apply Z.leb_le; lia).
  now rewrite H1, H2, M1, M2.
Qed.

Lemma widest_criteria_keep_every_timed_row_witness :
  state Examples.no_selection = []
  /\ severity Examples.no_selection = []
  /\ weather Examples.no_selection = []
  /\ day Examples.no_selection = []
  /\ get_filtered_data Examples.df Examples.no_selection
     = boolean_index
         (fun r => notna (Date r) && notna (Hour r) && notna (Month r))
         Examples.df.
Proof.
  repeat (split; [reflexivity|]).
  apply (widest_criteria_keep_every_timed_row Examples.df
           Examples.no_selection); try reflexivity.
  unfold Examples.df, load_data. simpl.
  repeat (constructor;
          [split; [|split]; intros v E; simpl in E;
           first [discriminate
                 | injection E as <-;
                   first [split; reflexivity | simpl; lia]]|]).
  constructor.
Defined.

(** ** The limits of the date picker *)

Lemma load_data_Date_In (to_datetime : string -> option Timestamp)
    (csv : list CsvRow) (i : nat) (r : CsvRow) :
  nth_error csv i = Some r ->
  In (option_map dt_date (parse_cell to_datetime (csv_Start_Time r)))
     (map (fun ir => Date (snd ir)) (load_data to_datetime csv)).
Proof.
  intros H. apply in_map_iff.
  exists (i, load_row to_datetime r). split; [reflexivity|].
  apply nth_error_In with (n := i).
  now rewrite load_data_nth_error, H.
Qed.

(** C8, where the code departs from it: the loader keeps a row whose
    timestamp does not parse, with a null date; but when [min] of a column
    of objects raises on a column that has both dates and nulls, as it
    does in pandas 1.x and 2.x, a file with one timestamp that parses and
    one that does not makes line 49 raise, and the run ends before the
    filter is called. *)
Theorem min_date_raises_on_an_unparsable_timestamp
    (Series_min Series_max : list (option date) -> outcome (option date))
    (to_datetime : string -> option Timestamp) (csv : list CsvRow)
    (c : Criteria) (i j : nat) (r r' : CsvRow) (t : Timestamp) :
  raises_on_missing_dates Series_min ->
  nth_error csv i = Some r ->
  parse_cell to_datetime (csv_Start_Time r) = None ->
  nth_error csv j = Some r' ->
  parse_cell to_datetime (csv_Start_Time r') = Some t ->
  nth_error (load_data to_datetime csv) i
  = Some (i, load_row to_datetime r)
  /\ Date (load_row to_datetime r) = None
  /\ min_max_date Series_min Series_max (load_data to_datetime csv)
     = TypeError
  /\ filtered_df_of_run Series_min Series_max (load_data to_datetime csv) c
     = TypeError.
Proof.
  intros R Hi Pi Hj Pj.
  assert (M : min_max_date Series_min Series_max
                (load_data to_datetime csv) = TypeError).
  { unfold min_max_date. rewrite (R _ (dt_date t)); [reflexivity| |].
    - pose proof (load_data_Date_In to_datetime csv j r' Hj) as H.
      now rewrite Pj in H.
    - pose proof (load_data_Date_In to_datetime csv i r Hi) as H.
      now rewrite Pi in H. }
  split; [now rewrite load_data_nth_error, Hi|].
  split; [unfold load_row; simpl; now rewrite Pi|].
  split; [exact M|]. unfold filtered_df_of_run. now rewrite M.
Qed.

Lemma object_min_raises_on_missing_dates :
  raises_on_missing_dates object_min.
Proof.
  intros col d Hd Hn. unfold object_min, object_reduce.
  assert (A : existsb notna col = true)
    by (apply existsb_exists; now exists (Some d)).
  assert (B : existsb (fun c => negb (notna c)) col = true)
    by (apply existsb_exists; now exists None).
  now rewrite A, B.
Qed.

Lemma min_date_raises_on_an_unparsable_timestamp_witness :
  raises_on_missing_dates object_min
  /\ nth_error Examples.csv 2 = Some Examples.unparsable
  /\ parse_cell Examples.to_datetime (csv_Start_Time Examples.unparsable)
     = None
  /\ (exists r' t,
        nth_error Examples.csv 0 = Some r'
        /\ parse_cell Examples.to_datetime (csv_Start_Time r') = Some t)
  /\ min_max_date object_min object_max Examples.df = TypeError
  /\ filtered_df_of_run object_min object_max Examples.df
       Examples.no_selection
     = TypeError.
Proof.
  split; [exact object_min_raises_on_missing_dates|].
  split; [reflexivity|]. split; [reflexivity|].
  split; [eexists; eexists; split; reflexivity|].
  destruct (min_date_raises_on_an_unparsable_timestamp
              object_min object_max Examples.to_datetime Examples.csv
              Examples.no_selection 2%nat 0%nat Examples.unparsable
              _ _ object_min_raises_on_missing_dates
              eq_refl eq_refl eq_refl eq_refl) as [_ [_ [M F]]].
  split; [exact M | exact F].
Defined.

(** Without the unparsable row the same lines return the first and the
    last date of the table. *)
Example min_max_date_worked :
  min_max_date object_min object_max Examples.dated_df
  = Returned (Some (mkdate 2023 1 2), Some (mkdate 2023 3 5)).
Proof. reflexivity. Qed.
